(** * node-qiwi-api: the wallet client of [lib/index.js]

    A shallow embedding of the client library: JavaScript values, the
    property reads and coercions the library performs, the [request]
    transport as an oracle, and every method of the [Qiwi] object written in
    a small state-and-exception monad that keeps a transcript of what the
    library did (requests issued, calls of the normalization routine, calls
    of the caller's completion callback).  *)

From Stdlib Require Import ZArith List String Ascii Bool Lia.
From Stdlib Require Import DecimalString DecimalPos DecimalZ.
Import ListNotations.
Local Open Scope string_scope.
Local Open Scope Z_scope.
Set Warnings "-register-all".

(* ================================================================= *)
(** ** JavaScript values *)

(** The values that flow through the library: JSON data decoded by the
    transport, the arguments supplied by the caller, and [Error] objects.
    A number is an integer, or a finite number that is not one, kept as its
    decimal representation (an amount such as 0.01); objects are plain
    records (an association list, first binding wins) that do not shadow
    [toString]/[valueOf]. *)
Inductive JSVal : Type :=
| JUndefined
| JNull
| JBool (b : bool)
| JNum (n : Z)
| JFrac (digits : string)
| JStr (s : string)
| JArr (items : list JSVal)
| JObj (fields : list (string * JSVal))
| JError (message : string).

(** What the library can raise: the engine's TypeError for a property read
    on [undefined]/[null], or a value thrown by a [throw] statement. *)
Inductive Exn : Type :=
| TypeError (base : JSVal) (prop : string)
| Thrown (v : JSVal).

Module JS.

(** [v == null], equivalently [v == undefined]. *)
Definition nullish (v : JSVal) : bool :=
  match v with
  | JUndefined | JNull => true
  | _ => false
  end.

(** ToBoolean, as used by [if (err || ...)]. *)
Definition truthy (v : JSVal) : bool :=
  match v with
  | JUndefined | JNull => false
  | JBool b => b
  | JNum n => negb (n =? 0)
  | JFrac _ => true
  | JStr s => negb (s =? EmptyString)%string
  | JArr _ | JObj _ | JError _ => true
  end.

(** [Number.prototype.toString] on an integral number: the full decimal
    numeral, which is what JavaScript prints for the integers a double
    holds exactly up to 1e21 (beyond, it prints an exponent form, which is
    not modelled). *)
Definition Number_toString (n : Z) : string :=
  NilZero.string_of_int (Z.to_int n).

(** ToString, as performed by template literals and by [+] with a string
    operand. *)
Fixpoint ToString (v : JSVal) : string :=
  match v with
  | JUndefined => "undefined"
  | JNull => "null"
  | JBool true => "true"
  | JBool false => "false"
  | JNum n => Number_toString n
  | JFrac digits => digits
  | JStr s => s
  | JArr items =>
      (fix join (l : list JSVal) : string :=
         match l with
         | [] => EmptyString
         | x :: rest =>
             let here := if nullish x then EmptyString else ToString x in
             match rest with
             | [] => here
             | _ :: _ => here ++ "," ++ join rest
             end
         end) items
  | JObj _ => "[object Object]"
  | JError m => if (m =? EmptyString)%string then "Error" else "Error: " ++ m
  end.

(** [v == "2"]: abstract equality against the string literal ["2"].
    Null and undefined equal only each other; a boolean or a number is
    compared with ToNumber("2") = 2; a string is compared as a string; an
    object is first converted to its primitive, here its string. *)
Definition loose_eq_2 (v : JSVal) : bool :=
  match v with
  | JUndefined | JNull => false
  | JBool b => (if b then 1 else 0) =? 2
  | JNum n => n =? 2
  | JFrac _ => false
  | JStr s => (s =? "2")%string
  | JArr _ | JObj _ | JError _ => (ToString v =? "2")%string
  end.

Fixpoint assoc (name : string) (fields : list (string * JSVal)) : JSVal :=
  match fields with
  | [] => JUndefined
  | (k, v) :: rest => if (k =? name)%string then v else assoc name rest
  end.

(** The property read [v.name], for the names the library reads (none is
    an array index).  Reading from [undefined] or [null] raises. *)
Definition get (v : JSVal) (name : string) : Exn + JSVal :=
  match v with
  | JUndefined | JNull => inl (TypeError v name)
  | JObj fields => inr (assoc name fields)
  | JError m =>
      inr (if (name =? "message")%string then JStr m
           else if (name =? "name")%string then JStr "Error"
           else JUndefined)
  | JStr s =>
      inr (if (name =? "length")%string then JNum (Z.of_nat (String.length s))
           else JUndefined)
  | JArr items =>
      inr (if (name =? "length")%string then JNum (Z.of_nat (List.length items))
           else JUndefined)
  | JBool _ | JNum _ | JFrac _ => inr JUndefined
  end.

(** The i-th parameter of a function called with [args]; a parameter with
    no argument is [undefined]. *)
Definition arg (i : nat) (args : list JSVal) : JSVal := nth i args JUndefined.

End JS.

(* ================================================================= *)
(** ** The world the library runs in *)

Inductive Verb : Type := GET | POST | PUT | DELETE.

(** A call [request.verb(options, cb)]: the verb and the options object. *)
Definition Request : Type := (Verb * JSVal)%type.

(** The HTTP collaborator.  Given the requests issued before and the one
    issued now, it answers with the [(error, response)] pair it hands to the
    request's callback. *)
Definition Transport : Type := list Request -> Request -> JSVal * JSVal.

Record World : Type := mkWorld {
  transport : Transport;
  clock : Z;                                (* what [Date.now()] reads *)
  sent : list Request;                      (* requests issued, in order *)
  normalized : list (JSVal * JSVal);        (* calls of processRequestCallback *)
  delivered : list (list JSVal);            (* calls of the caller's callback *)
  uncaught : option Exn                     (* raised inside a transport callback *)
}.

Definition boot (tr : Transport) (now : Z) : World :=
  mkWorld tr now [] [] [] None.

Inductive Completion (A : Type) : Type :=
| Normal (a : A)
| Abrupt (e : Exn).
Arguments Normal {A} a.
Arguments Abrupt {A} e.

(** Computations of the library: they read and extend the world and either
    complete normally or abruptly (a raised exception). *)
Definition M (A : Type) : Type := World -> Completion A * World.

Definition ret {A} (a : A) : M A := fun w => (Normal a, w).

Definition bind {A B} (m : M A) (k : A -> M B) : M B :=
  fun w =>
    match m w with
    | (Normal a, w') => k a w'
    | (Abrupt e, w') => (Abrupt e, w')
    end.

Definition throw {A} (e : Exn) : M A := fun w => (Abrupt e, w).

Declare Scope js_scope.
Delimit Scope js_scope with js.
Notation "x <- m ;; k" := (bind m (fun x => k))
  (at level 61, m at next level, right associativity) : js_scope.
Notation "m ;;; k" := (bind m (fun _ => k))
  (at level 61, right associativity) : js_scope.
Local Open Scope js_scope.

(** [v.name] inside a computation. *)
Definition get_prop (v : JSVal) (name : string) : M JSVal :=
  match JS.get v name with
  | inr x => ret x
  | inl e => throw e
  end.

(** [Date.now()]. *)
Definition Date_now : M Z := fun w => (Normal (clock w), w).

(** A JavaScript function value used as a callback: it receives the
    argument list it is called with. *)
Definition Callback : Type := list JSVal -> M unit.

(** Transcript updates. *)
Definition add_sent (rq : Request) (w : World) : World :=
  mkWorld (transport w) (clock w) (sent w ++ [rq]) (normalized w)
          (delivered w) (uncaught w).

Definition add_normalized (entry : JSVal * JSVal) (w : World) : World :=
  mkWorld (transport w) (clock w) (sent w) (normalized w ++ [entry])
          (delivered w) (uncaught w).

Definition add_delivered (args : list JSVal) (w : World) : World :=
  mkWorld (transport w) (clock w) (sent w) (normalized w)
          (delivered w ++ [args]) (uncaught w).

Definition set_uncaught (e : Exn) (w : World) : World :=
  mkWorld (transport w) (clock w) (sent w) (normalized w)
          (delivered w) (Some e).

(** The caller's completion callback.  The library knows nothing about it;
    each call is recorded with the arguments it was given. *)
Definition caller : Callback :=
  fun args w => (Normal tt, add_delivered args w).

(** A callback run by the transport, from the event loop: an exception it
    raises is not seen by the code that issued the request; it is an
    uncaught exception of the process. *)
Definition from_event_loop (r : Completion unit * World)
  : Completion unit * World :=
  match r with
  | (Normal _, w') => (Normal tt, w')
  | (Abrupt e, w') => (Normal tt, set_uncaught e w')
  end.

(** [request.get/post/put/delete(options, cb)].  The request is issued and
    the call returns; the transport later calls [cb(error, response)]. *)
Definition request (verb : Verb) (options : JSVal) (cb : Callback) : M unit :=
  fun w =>
    let rq := (verb, options) in
    let answer := transport w (sent w) rq in
    from_event_loop (cb [fst answer; snd answer] (add_sent rq w)).

(** Transcript entry made on entry to [processRequestCallback]. *)
Definition enter_normalization (error body : JSVal) : M unit :=
  fun w => (Normal tt, add_normalized (error, body) w).

(* ================================================================= *)
(** ** The library *)

(** [function processRequestCallback(error, body, callback)]. *)
Definition processRequestCallback (error body : JSVal) (callback : Callback)
  : M unit :=
  enter_normalization error body ;;;
  if negb (JS.nullish error) then callback [error; JNull]
  else
    errorCode <- get_prop body "errorCode" ;;
    if negb (JS.nullish errorCode) then callback [body; JNull]
    else callback [JNull; body].

(** The arrow function every request is given:
    [(error, response) => { processRequestCallback(error, response.body, callback); }]. *)
Definition respond (callback : Callback) : Callback :=
  fun args =>
    let error := JS.arg 0 args in
    let response := JS.arg 1 args in
    body <- get_prop response "body" ;;
    processRequestCallback error body callback.

(** The client object built by [new Qiwi(token)]. *)
Record Qiwi : Type := mkQiwi { token : JSVal }.

(** [this.headers]. *)
Definition headers (q : Qiwi) : JSVal :=
  JObj [ ("Accept", JStr "application/json");
         ("content-type", JStr "application/json");
         ("Authorization", JStr ("Bearer " ++ JS.ToString (token q))) ].

(** [this.apiUri]. *)
Definition apiUri : string := "https://edge.qiwi.com".

(** The receiver of a plain function call in the sloppy-mode module: the
    global object, which has no [headers] property. *)
Definition globalThis : JSVal := JObj [].

Section Methods.

Variable q : Qiwi.

Definition getIdentificationData (wallet : JSVal) (callback : Callback) : M unit :=
  let options := JObj [
    ("url", JStr (apiUri ++ "/identification/v1/persons/" ++ JS.ToString wallet
                   ++ "/identification"));
    ("headers", headers q);
    ("json", JBool true) ] in
  request GET options (respond callback).

Definition identifyWallet (wallet requestOptions : JSVal) (callback : Callback)
  : M unit :=
  let options := JObj [
    ("url", JStr (apiUri ++ "/identification/v1/persons/" ++ JS.ToString wallet
                   ++ "/identification"));
    ("headers", headers q);
    ("body", requestOptions);
    ("json", JBool true) ] in
  request POST options (respond callback).

Definition getAccountInfo (callback : Callback) : M unit :=
  let options := JObj [
    ("url", JStr (apiUri ++ "/person-profile/v1/profile/current"));
    ("headers", headers q);
    ("json", JBool true) ] in
  request GET options (respond callback).

Definition getBalance (callback : Callback) : M unit :=
  let options := JObj [
    ("url", JStr (apiUri ++ "/funding-sources/v1/accounts/current"));
    ("headers", headers q);
    ("json", JBool true) ] in
  request GET options (respond callback).

(** The arrow function [getOperationHistory] passes to [getAccountInfo]. *)
Definition getOperationHistory_onAccountInfo
  (requestOptions : JSVal) (callback : Callback) : Callback :=
  fun args =>
    let err := JS.arg 0 args in
    let data := JS.arg 1 args in
    if negb (JS.nullish err) then callback [err; JNull]
    else if JS.nullish data then
      callback [JError "Can not retrieve account info"; JNull]
    else
      authInfo <- get_prop data "authInfo" ;;
      personId <- get_prop authInfo "personId" ;;
      let options := JObj [
        ("url", JStr (apiUri ++ "/payment-history/v2/persons/"
                       ++ JS.ToString personId ++ "/payments"));
        ("headers", headers q);
        ("qs", requestOptions);
        ("json", JBool true) ] in
      request GET options (respond callback).

Definition getOperationHistory (requestOptions : JSVal) (callback : Callback)
  : M unit :=
  getAccountInfo (getOperationHistory_onAccountInfo requestOptions callback).

(** The arrow function [getOperationStatistics] passes to [getAccountInfo]. *)
Definition getOperationStatistics_onAccountInfo
  (requestOptions : JSVal) (callback : Callback) : Callback :=
  fun args =>
    let err := JS.arg 0 args in
    let data := JS.arg 1 args in
    if negb (JS.nullish err) then callback [err; JNull]
    else if JS.nullish data then
      callback [JError "Can not retrieve account info"; JNull]
    else
      authInfo <- get_prop data "authInfo" ;;
      personId <- get_prop authInfo "personId" ;;
      let options := JObj [
        ("url", JStr (apiUri ++ "/payment-history/v2/persons/"
                       ++ JS.ToString personId ++ "/payments/total"));
        ("headers", headers q);
        ("qs", requestOptions);
        ("json", JBool true) ] in
      request GET options (respond callback).

Definition getOperationStatistics (requestOptions : JSVal) (callback : Callback)
  : M unit :=
  getAccountInfo (getOperationStatistics_onAccountInfo requestOptions callback).

Definition getTransactionInfo (transactionId : JSVal) (callback : Callback)
  : M unit :=
  let options := JObj [
    ("url", JStr (apiUri ++ "/payment-history/v2/transactions/"
                   ++ JS.ToString transactionId));
    ("headers", headers q);
    ("json", JBool true) ] in
  request GET options (respond callback).

Definition getReceipt (transactionId requestOptions : JSVal)
  (callback : Callback) : M unit :=
  let options := JObj [
    ("url", JStr (apiUri ++ "/payment-history/v1/transactions/"
                   ++ JS.ToString transactionId ++ "/cheque/file"));
    ("headers", headers q);
    ("qs", requestOptions);
    ("json", JBool true) ] in
  request GET options (respond callback).

(** [(1000 * Date.now()).toString()].  The product is the exact one; the
    code multiplies doubles, which is the same product while it stays below
    2^53. *)
Definition payment_id : M JSVal :=
  now <- Date_now ;;
  ret (JStr (JS.Number_toString (1000 * now))).

Definition toWallet (requestOptions : JSVal) (callback : Callback) : M unit :=
  id <- payment_id ;;
  amount <- get_prop requestOptions "amount" ;;
  comment <- get_prop requestOptions "comment" ;;
  account <- get_prop requestOptions "account" ;;
  let options := JObj [
    ("url", JStr (apiUri ++ "/sinap/terms/99/payments"));
    ("headers", headers q);
    ("body", JObj [
       ("id", id);
       ("sum", JObj [ ("amount", amount); ("currency", JStr "643") ]);
       ("source", JStr "account_643");
       ("paymentMethod", JObj [ ("type", JStr "Account");
                                ("accountId", JStr "643") ]);
       ("comment", comment);
       ("fields", JObj [ ("account", account) ]) ]);
    ("json", JBool true) ] in
  request POST options (respond callback).

(** [function detectOperator(phone, callback)], a plain function: its
    [this] is not the client. *)
Definition detectOperator (phone : JSVal) (callback : Callback) : M unit :=
  this_headers <- get_prop globalThis "headers" ;;
  let options := JObj [
    ("url", JStr "https://qiwi.com/mobile/detect.action");
    ("headers", this_headers);
    ("qs", JObj [ ("phone", phone) ]);
    ("json", JBool true) ] in
  request POST options (respond callback).

Definition detectCard (cardNumber : JSVal) (callback : Callback) : M unit :=
  let options := JObj [
    ("url", JStr "https://qiwi.com/card/detect.action");
    ("headers", headers q);
    ("qs", JObj [ ("cardNumber", cardNumber) ]);
    ("json", JBool true) ] in
  request POST options (respond callback).

(** [err || data.code.value == "2"]. *)
Definition not_detected (err data : JSVal) : M bool :=
  if JS.truthy err then ret true
  else
    code <- get_prop data "code" ;;
    value <- get_prop code "value" ;;
    ret (JS.loose_eq_2 value).

(** The arrow function [toMobilePhone] passes to [detectOperator]. *)
Definition toMobilePhone_onDetect
  (requestOptions : JSVal) (callback : Callback) : Callback :=
  fun args =>
    let err := JS.arg 0 args in
    let data := JS.arg 1 args in
    failed <- not_detected err data ;;
    if (failed : bool) then throw (Thrown (JError "Can't detect operator."))
    else
      message <- get_prop data "message" ;;
      id <- payment_id ;;
      amount <- get_prop requestOptions "amount" ;;
      comment <- get_prop requestOptions "comment" ;;
      account <- get_prop requestOptions "account" ;;
      let options := JObj [
        ("url", JStr (apiUri ++ "/sinap/terms/" ++ JS.ToString message
                       ++ "/payments"));
        ("headers", headers q);
        ("body", JObj [
           ("id", id);
           ("sum", JObj [ ("amount", amount); ("currency", JStr "643") ]);
           ("source", JStr "account_643");
           ("paymentMethod", JObj [ ("type", JStr "Account");
                                    ("accountId", JStr "643") ]);
           ("comment", comment);
           ("fields", JObj [ ("account", account) ]) ]);
        ("json", JBool true) ] in
      request POST options (respond callback).

Definition toMobilePhone (requestOptions : JSVal) (callback : Callback)
  : M unit :=
  account <- get_prop requestOptions "account" ;;
  detectOperator (JStr ("7" ++ JS.ToString account))
                 (toMobilePhone_onDetect requestOptions callback).

(** The arrow function [toCard] passes to [detectCard].  On failure it
    runs [callback(new Error('Wrong card number!', null))]: the [null] is
    an argument of the [Error] constructor, which ignores it, and the
    callback is called with the error alone. *)
Definition toCard_onDetect
  (requestOptions : JSVal) (callback : Callback) : Callback :=
  fun args =>
    let err := JS.arg 0 args in
    let data := JS.arg 1 args in
    failed <- not_detected err data ;;
    if (failed : bool) then callback [JError "Wrong card number!"]
    else
      message <- get_prop data "message" ;;
      id <- payment_id ;;
      amount <- get_prop requestOptions "amount" ;;
      comment <- get_prop requestOptions "comment" ;;
      account <- get_prop requestOptions "account" ;;
      let options := JObj [
        ("url", JStr (apiUri ++ "/sinap/terms/" ++ JS.ToString message
                       ++ "/payments"));
        ("headers", headers q);
        ("body", JObj [
           ("id", id);
           ("sum", JObj [ ("amount", amount); ("currency", JStr "643") ]);
           ("source", JStr "account_643");
           ("paymentMethod", JObj [ ("type", JStr "Account");
                                    ("accountId", JStr "643") ]);
           ("comment", comment);
           ("fields", JObj [ ("account", account) ]) ]);
        ("json", JBool true) ] in
      request POST options (respond callback).

Definition toCard (requestOptions : JSVal) (callback : Callback) : M unit :=
  account <- get_prop requestOptions "account" ;;
  detectCard account (toCard_onDetect requestOptions callback).

Definition toBank (requestOptions recipient : JSVal) (callback : Callback)
  : M unit :=
  id <- payment_id ;;
  amount <- get_prop requestOptions "amount" ;;
  comment <- get_prop requestOptions "comment" ;;
  account <- get_prop requestOptions "account" ;;
  account_type <- get_prop requestOptions "account_type" ;;
  exp_date <- get_prop requestOptions "exp_date" ;;
  let options := JObj [
    ("url", JStr (apiUri ++ "/sinap/terms/" ++ JS.ToString recipient
                   ++ "/payments"));
    ("headers", headers q);
    ("body", JObj [
       ("id", id);
       ("sum", JObj [ ("amount", amount); ("currency", JStr "643") ]);
       ("source", JStr "account_643");
       ("paymentMethod", JObj [ ("type", JStr "Account");
                                ("accountId", JStr "643") ]);
       ("comment", comment);
       ("fields", JObj [ ("account", account);
                         ("account_type", account_type);
                         ("exp_date", exp_date) ]) ]);
    ("json", JBool true) ] in
  request POST options (respond callback).

Definition checkCommission (recipient : JSVal) (callback : Callback) : M unit :=
  let options := JObj [
    ("url", JStr (apiUri ++ "/sinap/providers/" ++ JS.ToString recipient
                   ++ "/form"));
    ("json", JBool true) ] in
  request GET options (respond callback).

Definition checkOnlineCommission (recipient requestOptions : JSVal)
  (callback : Callback) : M unit :=
  account <- get_prop requestOptions "account" ;;
  amount <- get_prop requestOptions "amount" ;;
  let options := JObj [
    ("url", JStr (apiUri ++ "/sinap/providers/" ++ JS.ToString recipient
                   ++ "/onlineCommission"));
    ("body", JObj [
       ("account", account);
       ("paymentMethod", JObj [ ("type", JStr "Account");
                                ("accountId", JStr "643") ]);
       ("purchaseTotals", JObj [
          ("total", JObj [ ("amount", amount);
                           ("currency", JStr "643") ]) ]) ]);
    ("json", JBool true) ] in
  request POST options (respond callback).

Definition getCrossRates (callback : Callback) : M unit :=
  let options := JObj [
    ("url", JStr (apiUri ++ "/sinap/crossRates"));
    ("headers", headers q);
    ("json", JBool true) ] in
  request GET options (respond callback).

Definition addWebHook (url txnType : JSVal) (callback : Callback) : M unit :=
  let options := JObj [
    ("url", JStr (apiUri ++ "/payment-notifier/v1/hooks"));
    ("headers", headers q);
    ("qs", JObj [ ("hookType", JNum 1); ("param", url); ("txnType", txnType) ]);
    ("json", JBool true) ] in
  request PUT options (respond callback).

Definition removeWebHook (hookId : JSVal) (callback : Callback) : M unit :=
  let options := JObj [
    ("url", JStr (apiUri ++ "/payment-notifier/v1/hooks/" ++ JS.ToString hookId));
    ("headers", headers q);
    ("json", JBool true) ] in
  request DELETE options (respond callback).

Definition getWebHookSecret (hookId : JSVal) (callback : Callback) : M unit :=
  let options := JObj [
    ("url", JStr (apiUri ++ "/payment-notifier/v1/hooks/" ++ JS.ToString hookId
                   ++ "/key"));
    ("headers", headers q);
    ("json", JBool true) ] in
  request GET options (respond callback).

Definition requestNewWebHookSecret (hookId : JSVal) (callback : Callback)
  : M unit :=
  let options := JObj [
    ("url", JStr (apiUri ++ "/payment-notifier/v1/hooks/" ++ JS.ToString hookId
                   ++ "/newkey"));
    ("headers", headers q);
    ("json", JBool true) ] in
  request POST options (respond callback).

Definition getActiveWebHook (callback : Callback) : M unit :=
  let options := JObj [
    ("url", JStr (apiUri ++ "/payment-notifier/v1/hooks/active"));
    ("headers", headers q);
    ("json", JBool true) ] in
  request GET options (respond callback).

Definition testActiveWebHook (callback : Callback) : M unit :=
  let options := JObj [
    ("url", JStr (apiUri ++ "/payment-notifier/v1/hooks/test"));
    ("headers", headers q);
    ("json", JBool true) ] in
  request GET options (respond callback).

End Methods.

(* ================================================================= *)
(** ** Calls of the public methods *)

(** One call of a public method of the client, with its arguments (the
    completion callback apart). *)
Inductive Op : Type :=
| GetIdentificationData (wallet : JSVal)
| IdentifyWallet (wallet requestOptions : JSVal)
| GetAccountInfo
| GetBalance
| GetOperationHistory (requestOptions : JSVal)
| GetOperationStatistics (requestOptions : JSVal)
| GetTransactionInfo (transactionId : JSVal)
| GetReceipt (transactionId requestOptions : JSVal)
| ToWallet (requestOptions : JSVal)
| ToMobilePhone (requestOptions : JSVal)
| ToCard (requestOptions : JSVal)
| ToBank (requestOptions recipient : JSVal)
| CheckCommission (recipient : JSVal)
| CheckOnlineCommission (recipient requestOptions : JSVal)
| DetectCard (cardNumber : JSVal)
| GetCrossRates
| AddWebHook (url txnType : JSVal)
| RemoveWebHook (hookId : JSVal)
| GetWebHookSecret (hookId : JSVal)
| RequestNewWebHookSecret (hookId : JSVal)
| GetActiveWebHook
| TestActiveWebHook.

Definition call (q : Qiwi) (op : Op) (callback : Callback) : M unit :=
  match op with
  | GetIdentificationData wallet => getIdentificationData q wallet callback
  | IdentifyWallet wallet ro => identifyWallet q wallet ro callback
  | GetAccountInfo => getAccountInfo q callback
  | GetBalance => getBalance q callback
  | GetOperationHistory ro => getOperationHistory q ro callback
  | GetOperationStatistics ro => getOperationStatistics q ro callback
  | GetTransactionInfo tid => getTransactionInfo q tid callback
  | GetReceipt tid ro => getReceipt q tid ro callback
  | ToWallet ro => toWallet q ro callback
  | ToMobilePhone ro => toMobilePhone q ro callback
  | ToCard ro => toCard q ro callback
  | ToBank ro recipient => toBank q ro recipient callback
  | CheckCommission recipient => checkCommission recipient callback
  | CheckOnlineCommission recipient ro => checkOnlineCommission recipient ro callback
  | DetectCard cardNumber => detectCard q cardNumber callback
  | GetCrossRates => getCrossRates q callback
  | AddWebHook url txnType => addWebHook q url txnType callback
  | RemoveWebHook hookId => removeWebHook q hookId callback
  | GetWebHookSecret hookId => getWebHookSecret q hookId callback
  | RequestNewWebHookSecret hookId => requestNewWebHookSecret q hookId callback
  | GetActiveWebHook => getActiveWebHook q callback
  | TestActiveWebHook => testActiveWebHook q callback
  end.

(** A computation run from boot with the caller's recording callback. *)
Definition run (m : Callback -> M unit) (tr : Transport) (now : Z)
  : Completion unit * World :=
  m caller (boot tr now).

(** One call of a public method, from boot. *)
Definition exec (q : Qiwi) (op : Op) (tr : Transport) (now : Z)
  : Completion unit * World :=
  run (call q op) tr now.

(** The exception a run ended with, if any: raised to the code that made
    the call, or uncaught inside a transport callback. *)
Definition raised (r : Completion unit * World) : option Exn :=
  match fst r with
  | Abrupt e => Some e
  | Normal _ => uncaught (snd r)
  end.

Definition requests (r : Completion unit * World) : list Request := sent (snd r).
Definition deliveries (r : Completion unit * World) : list (list JSVal) :=
  delivered (snd r).
Definition normalizations (r : Completion unit * World) : list (JSVal * JSVal) :=
  normalized (snd r).

(** A transport that gives the same answer to every request. *)
Definition always (error response : JSVal) : Transport :=
  fun _ _ => (error, response).

(** A response whose decoded body is [body]. *)
Definition response_with (body : JSVal) : JSVal :=
  JObj [ ("statusCode", JNum 200); ("body", body) ].

(** What the normalization routine is called with when every answer of
    the transport is routed through it: for each request in turn, the
    answer's error and the body read from the answer's response, up to the
    first response whose body cannot be read. *)
Fixpoint routed (tr : Transport) (before : list Request) (rqs : list Request)
  : list (JSVal * JSVal) :=
  match rqs with
  | [] => []
  | rq :: rest =>
      match JS.get (snd (tr before rq)) "body" with
      | inr body => (fst (tr before rq), body) :: routed tr (before ++ [rq]) rest
      | inl _ => []
      end
  end.

(** The [Authorization] header of a request: [options.headers.Authorization],
    when the options carry headers at all. *)
Definition authorization (rq : Request) : option JSVal :=
  match JS.get (snd rq) "headers" with
  | inr h => match JS.get h "Authorization" with
             | inr a => Some a
             | inl _ => None
             end
  | inl _ => None
  end.

(** ['Bearer ' + this.token]. *)
Definition bearer (q : Qiwi) : JSVal := JStr ("Bearer " ++ JS.ToString (token q)).

(** An [(error, result)] pair as the callback contract wants it. *)
Definition contract_pair (e d : JSVal) : Prop :=
  (JS.nullish e = false /\ d = JNull) \/ (e = JNull /\ JS.nullish d = false).

(** [v.a.b...] read through plain data; [None] when a read raises. *)
Fixpoint path (v : JSVal) (names : list string) : option JSVal :=
  match names with
  | [] => Some v
  | n :: rest => match JS.get v n with
                 | inr x => path x rest
                 | inl _ => None
                 end
  end.

(** The requests a method can build, whatever the transport answers. *)
Definition built_by (m : Callback -> M unit) (rq : Request) : Prop :=
  exists tr now, In rq (sent (snd (run m tr now))).

(** The requests of the three endpoints whose options are built without
    the client's headers. *)
Definition built_without_headers (rq : Request) : Prop :=
  (exists recipient, built_by (checkCommission recipient) rq)
  \/ (exists recipient requestOptions,
        built_by (checkOnlineCommission recipient requestOptions) rq)
  \/ (exists phone, built_by (detectOperator phone) rq).

(** What every run of the library guarantees, from a world [w] with no
    uncaught exception to its result [r]: the transcript only grows; every
    answer is routed through the normalization routine; the caller's
    callback is called at most once, and once when nothing was raised; a
    pair it receives obeys the contract; a normalization entered with
    neither an error nor a body raised, before any delivery; and every
    request carries the client's authorization or comes from an endpoint
    built without headers. *)
Definition Good (q : Qiwi) (w : World) (r : Completion unit * World) : Prop :=
  exists news norms ds,
    transport (snd r) = transport w
    /\ sent (snd r) = (sent w ++ news)%list
    /\ normalized (snd r) = (normalized w ++ norms)%list
    /\ delivered (snd r) = (delivered w ++ ds)%list
    /\ norms = routed (transport w) (sent w) news
    /\ (List.length ds <= 1)%nat
    /\ (raised r = None -> List.length ds = 1%nat)
    /\ (forall e d, In [e; d] ds -> contract_pair e d)
    /\ (forall error body,
          In (error, body) norms ->
          JS.nullish error = true -> JS.nullish body = true ->
          raised r = Some (TypeError body "errorCode") /\ ds = [])
    /\ (forall rq, In rq news ->
          authorization rq = Some (bearer q) \/ built_without_headers rq).

(** Sample data used to exercise the statements. *)
Module Sample.

Definition client : Qiwi := mkQiwi (JStr "a1b2c3").

Definition now : Z := 1700000000000.

Definition payment : JSVal :=
  JObj [ ("amount", JNum 100); ("comment", JStr "rent");
         ("account", JStr "9161234567") ].

Definition history_query : JSVal := JObj [ ("rows", JNum 10) ].

Definition account_info : JSVal :=
  JObj [ ("authInfo", JObj [ ("personId", JNum 79161234567) ]) ].

Definition api_error : JSVal :=
  JObj [ ("errorCode", JStr "auth.forbidden"); ("message", JStr "denied") ].

Definition not_found : JSVal :=
  JObj [ ("code", JObj [ ("value", JStr "2") ]);
         ("message", JStr "unknown") ].

Definition transport_error : JSVal := JError "ETIMEDOUT".

Definition wallet_request : Request :=
  (POST,
   JObj [
     ("url", JStr "https://edge.qiwi.com/sinap/terms/99/payments");
     ("headers", JObj [ ("Accept", JStr "application/json");
                        ("content-type", JStr "application/json");
                        ("Authorization", JStr "Bearer a1b2c3") ]);
     ("body", JObj [
        ("id", JStr "1700000000000000");
        ("sum", JObj [ ("amount", JNum 100); ("currency", JStr "643") ]);
        ("source", JStr "account_643");
        ("paymentMethod", JObj [ ("type", JStr "Account");
                                 ("accountId", JStr "643") ]);
        ("comment", JStr "rent");
        ("fields", JObj [ ("account", JStr "9161234567") ]) ]);
     ("json", JBool true) ]).

Definition online_commission_request : Request :=
  (POST,
   JObj [
     ("url", JStr "https://edge.qiwi.com/sinap/providers/99/onlineCommission");
     ("body", JObj [
        ("account", JStr "9161234567");
        ("paymentMethod", JObj [ ("type", JStr "Account");
                                 ("accountId", JStr "643") ]);
        ("purchaseTotals", JObj [
           ("total", JObj [ ("amount", JNum 100);
                            ("currency", JStr "643") ]) ]) ]);
     ("json", JBool true) ]).

End Sample.

(* ================================================================= *)
(** ** The constant tables and further observations *)

(** [this.recipients]. *)
Definition recipients : JSVal :=
  JObj [
    ("banks", JObj [
       ("alfabank", JNum 464);
       ("tinkoff", JNum 466);
       ("ao_otp_bank", JNum 804);
       ("ao_rosselhozbank", JNum 810);
       ("russkiy_standard", JNum 815);
       ("pao_vtb", JNum 816);
       ("promsvyazbank", JNum 821);
       ("pao_sberbank", JNum 870);
       ("renessans_credit", JNum 881);
       ("moskovskiy_kreditniy_bank", JNum 1134) ]);
    ("cards", JObj [
       ("visa_sng", JNum 1960);
       ("visa_rus", JNum 1963);
       ("mastercard_sng", JNum 21012);
       ("mastercard_rus", JNum 21013);
       ("mir", JNum 31652) ]);
    ("differentServices", JObj [
       ("onlime", JNum 674);
       ("podari_jizn", JNum 1239) ]);
    ("qiwi", JNum 99) ].

(** [this.txnType]. *)
Definition txnType : JSVal :=
  JObj [ ("IN", JNum 0); ("OUT", JNum 1); ("ALL", JNum 2) ].

(** [this.receiptFormat]. *)
Definition receiptFormat : JSVal :=
  JObj [ ("Jpeg", JStr "JPEG"); ("Pdf", JStr "PDF") ].

(** The numbers stored in a table, group by group. *)
Fixpoint numbers (v : JSVal) : list Z :=
  match v with
  | JNum n => [n]
  | JObj fields =>
      (fix each (l : list (string * JSVal)) : list Z :=
         match l with
         | [] => []
         | (_, x) :: rest => (numbers x ++ each rest)%list
         end) fields
  | _ => []
  end.

(** The methods that make a single exchange with the transport and hand
    its answer to the caller; the other four first ask for the account or
    for a provider. *)
Definition direct (op : Op) : bool :=
  match op with
  | GetOperationHistory _ | GetOperationStatistics _
  | ToMobilePhone _ | ToCard _ => false
  | _ => true
  end.

(** The request options whose properties a method reads before it issues
    anything. *)
Definition options_read (op : Op) : option JSVal :=
  match op with
  | ToWallet ro | ToMobilePhone ro | ToCard ro | ToBank ro _
  | CheckOnlineCommission _ ro => Some ro
  | _ => None
  end.

(** A request of the library: flagged [json: true], with a string URL that
    is under the API host or is one of the two detection URLs. *)
Definition to_qiwi (rq : Request) : Prop :=
  JS.get (snd rq) "json" = inr (JBool true)
  /\ exists url,
       JS.get (snd rq) "url" = inr (JStr url)
       /\ (String.prefix "https://edge.qiwi.com/" url = true
           \/ url = "https://qiwi.com/mobile/detect.action"
           \/ url = "https://qiwi.com/card/detect.action").

(** A run that stays tidy, from a world [w] with no uncaught exception:
    it issues at most [n] requests, each one a request of the library, and
    if anything is raised the caller's callback has not been called. *)
Definition Tidy (n : nat) (w : World) (r : Completion unit * World) : Prop :=
  exists news,
    sent (snd r) = (sent w ++ news)%list
    /\ Forall to_qiwi news
    /\ (List.length news <= n)%nat
    /\ (raised r <> None -> delivered (snd r) = delivered w).

(** A decoded body that is not a plain object. *)
Definition not_an_object (v : JSVal) : bool :=
  match v with
  | JObj _ => false
  | _ => true
  end.

(** The answers of the transport to the requests [rqs], issued in turn
    after the requests [before]. *)
Fixpoint answers (tr : Transport) (before rqs : list Request)
  : list (JSVal * JSVal) :=
  match rqs with
  | [] => []
  | rq :: rest => tr before rq :: answers tr (before ++ [rq]) rest
  end.

(** The answer [(error, response)] entered the normalization routine as
    [(error, response.body)]. *)
Definition routed_as (answer entry : JSVal * JSVal) : Prop :=
  fst entry = fst answer /\ JS.get (snd answer) "body" = inr (snd entry).

(** What the caller's callback may be called with: a pair of the contract
    or, on the send-to-card path only, the lone error of a card that is not
    detected. *)
Definition delivery_ok (card : bool) (args : list JSVal) : Prop :=
  (exists e d, args = [e; d] /\ contract_pair e d)
  \/ (card = true /\ args = [JError "Wrong card number!"]).

Definition is_toCard (op : Op) : bool :=
  match op with
  | ToCard _ => true
  | _ => false
  end.

(** A run accounted for exactly, from a world [w] to its result [r]: each
    call of the callback is a delivery as above; and either every answer of
    the transport entered the normalization routine, in order, or the last
    request was answered without a response object, the read of its body
    raised, and nothing was delivered. *)
Definition Exact (card : bool) (w : World) (r : Completion unit * World) : Prop :=
  exists news norms ds,
    transport (snd r) = transport w
    /\ sent (snd r) = (sent w ++ news)%list
    /\ normalized (snd r) = (normalized w ++ norms)%list
    /\ delivered (snd r) = (delivered w ++ ds)%list
    /\ Forall (delivery_ok card) ds
    /\ (Forall2 routed_as (answers (transport w) (sent w) news) norms
        \/ exists before rq,
             news = (before ++ [rq])%list
             /\ JS.nullish (snd (transport w (sent w ++ before)%list rq)) = true
             /\ Forall2 routed_as (answers (transport w) (sent w) before) norms
             /\ raised r
                = Some (TypeError (snd (transport w (sent w ++ before)%list rq))
                          "body")
             /\ ds = []).

(** Further sample data. *)
Module Example.

Definition bank_payment : JSVal :=
  JObj [ ("amount", JFrac "0.01"); ("comment", JStr "test");
         ("account", JStr "5213000000000000");
         ("account_type", JStr "1"); ("exp_date", JStr "1227") ].

Definition detected : JSVal :=
  JObj [ ("code", JObj [ ("value", JStr "0") ]); ("message", JStr "1963") ].

Definition malformed : JSVal := JObj [ ("message", JStr "1963") ].

End Example.

(* ================================================================= *)
(** ** Proof support *)

Arguments JS.get !v name /.
Arguments JS.nullish !v /.
Arguments JS.truthy !v /.
Arguments JS.loose_eq_2 !v /.
Arguments JS.ToString : simpl never.
Arguments JS.Number_toString : simpl never.
Arguments String.append : simpl never.
Arguments headers : simpl never.

Ltac unfold_library :=
  unfold exec, run, call, requests, deliveries, normalizations, raised,
    getIdentificationData, identifyWallet, getAccountInfo, getBalance,
    getOperationHistory, getOperationHistory_onAccountInfo,
    getOperationStatistics, getOperationStatistics_onAccountInfo,
    getTransactionInfo, getReceipt, toWallet, toMobilePhone,
    toMobilePhone_onDetect, toCard, toCard_onDetect, not_detected, toBank,
    checkCommission, checkOnlineCommission, detectOperator, detectCard,
    getCrossRates, addWebHook, removeWebHook, getWebHookSecret,
    requestNewWebHookSecret, getActiveWebHook, testActiveWebHook,
    payment_id, Date_now,
    request, from_event_loop, respond, processRequestCallback,
    enter_normalization, caller,
    get_prop, bind, ret, throw, boot, JS.arg in *.

Ltac reuse :=
  match goal with
  | H : JS.get ?v ?n = _ |- context [JS.get ?v ?n] => rewrite H
  | H : JS.nullish ?v = _ |- context [JS.nullish ?v] => rewrite H
  | H : JS.truthy ?v = _ |- context [JS.truthy ?v] => rewrite H
  | H : JS.loose_eq_2 ?v = _ |- context [JS.loose_eq_2 ?v] => rewrite H
  end.

Ltac split_match :=
  match goal with
  | |- context [match JS.get ?v ?n with _ => _ end] =>
      let E := fresh "Eget" in destruct (JS.get v n) eqn:E
  | |- context [if negb (JS.nullish ?v) then _ else _] =>
      let E := fresh "Enull" in destruct (JS.nullish v) eqn:E
  | |- context [if JS.nullish ?v then _ else _] =>
      let E := fresh "Enull" in destruct (JS.nullish v) eqn:E
  | |- context [if JS.truthy ?v then _ else _] =>
      let E := fresh "Etruthy" in destruct (JS.truthy v) eqn:E
  | |- context [if JS.loose_eq_2 ?v then _ else _] =>
      let E := fresh "Eeq" in destruct (JS.loose_eq_2 v) eqn:E
  end.

Ltac symbolic :=
  unfold_library; unfold_library; repeat (cbn; first [reuse | split_match]).


Lemma get_inr_not_nullish (v : JSVal) (n : string) (x : JSVal) :
  JS.get v n = inr x -> JS.nullish v = false.
Proof. destruct v; cbn; congruence. Qed.

Lemma get_of_nullish (v : JSVal) (n : string) :
  JS.nullish v = true -> JS.get v n = inl (TypeError v n).
Proof. destruct v; cbn; congruence. Qed.

Lemma get_of_value (v : JSVal) (n : string) :
  JS.nullish v = false -> exists x, JS.get v n = inr x.
Proof. destruct v; cbn; try congruence; eauto. Qed.

Lemma truthy_not_nullish (v : JSVal) : JS.truthy v = true -> JS.nullish v = false.
Proof. destruct v; cbn; congruence. Qed.

(* ================================================================= *)
(** ** Response normalization *)

(** The routine, case by case, with the caller's callback. *)
Lemma processRequestCallback_error (error body : JSVal) (w : World) :
  JS.nullish error = false ->
  processRequestCallback error body caller w
  = (Normal tt, add_delivered [error; JNull] (add_normalized (error, body) w)).
Proof. intros H. unfold_library. cbn. now rewrite H. Qed.

Lemma processRequestCallback_body (error body code : JSVal) (w : World) :
  JS.nullish error = true ->
  JS.get body "errorCode" = inr code ->
  processRequestCallback error body caller w
  = (Normal tt,
     add_delivered (if JS.nullish code then [JNull; body] else [body; JNull])
                   (add_normalized (error, body) w)).
Proof.
  intros H Hc. unfold_library. cbn. rewrite H, Hc. cbn.
  now destruct (JS.nullish code).
Qed.

Lemma processRequestCallback_no_body (error body : JSVal) (w : World) :
  JS.nullish error = true ->
  JS.nullish body = true ->
  processRequestCallback error body caller w
  = (Abrupt (TypeError body "errorCode"), add_normalized (error, body) w).
Proof.
  intros H Hb. unfold_library. cbn. rewrite H. cbn.
  now rewrite (get_of_nullish body "errorCode" Hb).
Qed.

(* ================================================================= *)
(** ** What every run guarantees *)

Section Runs.

Variable q : Qiwi.

Lemma Good_abrupt (w : World) (e : Exn) :
  uncaught w = None -> Good q w (Abrupt e, w).
Proof.
  intros _. exists [], [], []. cbn. rewrite !app_nil_r.
  repeat split; auto; try discriminate.
  all: intros; cbn in *; contradiction.
Qed.

Lemma Good_caller (args : list JSVal) (w : World) :
  uncaught w = None ->
  (forall e d, args = [e; d] -> contract_pair e d) ->
  Good q w (caller args w).
Proof.
  intros Hu Hargs. exists [], [], [args]. cbn. rewrite !app_nil_r.
  repeat split; auto.
  all: intros; cbn in *; try contradiction.
  destruct H as [H | []]; auto.
Qed.

Lemma Good_get (v : JSVal) (n : string) (k : JSVal -> M unit) (w : World) :
  uncaught w = None ->
  (forall x, JS.get v n = inr x -> Good q w (k x w)) ->
  Good q w ((x <- get_prop v n ;; k x) w).
Proof.
  intros Hu Hk. unfold bind, get_prop.
  destruct (JS.get v n) as [e | x]; cbn.
  - now apply Good_abrupt.
  - now apply Hk.
Qed.

(** One exchange with the transport, answered through [respond]. *)
Lemma Good_exchange (verb : Verb) (options : JSVal) (cb : Callback) (w : World) :
  uncaught w = None ->
  authorization (verb, options) = Some (bearer q)
  \/ built_without_headers (verb, options) ->
  (forall e d w', contract_pair e d -> uncaught w' = None ->
                  Good q w' (cb [e; d] w')) ->
  Good q w (request verb options (respond cb) w).
Proof.
  intros Hu Hrq Hcb.
  unfold request, respond, JS.arg. cbn [nth fst snd].
  set (rq := (verb, options)).
  set (error := fst (transport w (sent w) rq)).
  set (response := snd (transport w (sent w) rq)).
  unfold bind at 1, get_prop at 1.
  destruct (JS.get response "body") as [e | body] eqn:Hbody; cbn.
  { (* the response has no readable body *)
    exists [rq], [], []. cbn. rewrite !app_nil_r.
    fold response. rewrite Hbody.
    repeat split; auto; try discriminate.
    all: intros; cbn in *; try contradiction.
    destruct H as [<- | []]; exact Hrq. }
  assert (Hstep : forall r',
    Good q (add_normalized (error, body) (add_sent rq w)) r' ->
    (forall ds', delivered (snd r') = (delivered w ++ ds')%list ->
                 JS.nullish error = true -> JS.nullish body = true ->
                 raised r' = Some (TypeError body "errorCode") /\ ds' = []) ->
    Good q w (from_event_loop r')).
  { intros r' (news & norms & ds & Ht & Hs & Hn & Hd & Hr & Hl & Hone & Hp & Hnb & Ha) Hhead.
    exists (rq :: news), ((error, body) :: norms), ds.
    destruct r' as [[[] | e'] w']; cbn in *.
    all: rewrite <- ?app_assoc in *; cbn in *.
    all: fold response error; rewrite Hbody.
    all: repeat split; auto; try congruence.
    all: intros.
    all: try (destruct H as [Heq | Hin];
              [ injection Heq as <- <-; destruct (Hhead ds Hd H0 H1); assumption
              | destruct (Hnb _ _ Hin H0 H1); assumption ]).
    all: destruct H as [<- | Hin]; [ exact Hrq | now apply Ha ]. }
  unfold processRequestCallback, bind at 1, enter_normalization. cbn.
  destruct (JS.nullish error) eqn:Herr; cbn.
  - unfold get_prop.
    destruct (JS.get body "errorCode") as [e | code] eqn:Hcode; cbn.
    + (* neither an error nor a body *)
      apply (Hstep (Abrupt e, _)).
      * now apply Good_abrupt.
      * cbn. intros ds' Hds _ Hb.
        rewrite (get_of_nullish _ _ Hb) in Hcode. injection Hcode as <-.
        split; [reflexivity |].
        apply (f_equal (@List.length _)) in Hds.
        rewrite length_app in Hds. destruct ds'; [reflexivity | cbn in Hds; lia].
    + pose proof (get_inr_not_nullish _ _ _ Hcode) as Hb.
      destruct (JS.nullish code); cbn; apply Hstep.
      * apply Hcb; [right; auto | exact Hu].
      * intros; congruence.
      * apply Hcb; [left; auto | exact Hu].
      * intros; congruence.
  - apply Hstep.
    + apply Hcb; [left; auto | exact Hu].
    + intros; congruence.
Qed.

Lemma Good_payment_id (k : JSVal -> M unit) (w : World) :
  Good q w (k (JStr (JS.Number_toString (1000 * clock w))) w) ->
  Good q w ((id <- payment_id ;; k id) w).
Proof. intros H. exact H. Qed.

Lemma carries_headers (verb : Verb) (url : JSVal) (rest : list (string * JSVal)) :
  authorization (verb, JObj (("url", url) :: ("headers", headers q) :: rest))
  = Some (bearer q).
Proof. reflexivity. Qed.

Lemma built_by_checkCommission (recipient : JSVal) :
  built_without_headers
    (GET, JObj [ ("url", JStr (apiUri ++ "/sinap/providers/"
                                ++ JS.ToString recipient ++ "/form"));
                 ("json", JBool true) ]).
Proof.
  left. exists recipient, (always JNull JNull), 0. cbn. left. reflexivity.
Qed.

Lemma built_by_checkOnlineCommission
  (recipient requestOptions account amount : JSVal) :
  JS.get requestOptions "account" = inr account ->
  JS.get requestOptions "amount" = inr amount ->
  built_without_headers
    (POST, JObj [
       ("url", JStr (apiUri ++ "/sinap/providers/" ++ JS.ToString recipient
                      ++ "/onlineCommission"));
       ("body", JObj [
          ("account", account);
          ("paymentMethod", JObj [ ("type", JStr "Account");
                                   ("accountId", JStr "643") ]);
          ("purchaseTotals", JObj [
             ("total", JObj [ ("amount", amount);
                              ("currency", JStr "643") ]) ]) ]);
       ("json", JBool true) ]).
Proof.
  intros Hacc Ham. right; left.
  exists recipient, requestOptions, (always JNull JNull), 0.
  unfold run, checkOnlineCommission, bind, get_prop.
  rewrite Hacc. cbn. rewrite Ham. cbn. left. reflexivity.
Qed.

Lemma built_by_detectOperator (phone : JSVal) :
  built_without_headers
    (POST, JObj [ ("url", JStr "https://qiwi.com/mobile/detect.action");
                  ("headers", JUndefined);
                  ("qs", JObj [ ("phone", phone) ]);
                  ("json", JBool true) ]).
Proof.
  right; right. exists phone, (always JNull JNull), 0. cbn. left. reflexivity.
Qed.

Ltac good_prelude :=
  repeat first
    [ apply Good_payment_id
    | apply Good_get; [ assumption | intros ? ? ] ].

Ltac good_simple :=
  good_prelude;
  apply Good_exchange;
  [ assumption
  | first [ left; apply carries_headers
          | right; apply built_by_checkCommission
          | right; eapply built_by_checkOnlineCommission; eassumption ]
  | let P := fresh "Hpair" in
    intros ?e ?d ?w' P ?Hw'; apply Good_caller;
    [ assumption | intros ? ? [= <- <-]; exact P ] ].

(** The continuations of the two-step methods. *)
Lemma Good_getOperationHistory_onAccountInfo
  (requestOptions e d : JSVal) (w : World) :
  contract_pair e d -> uncaught w = None ->
  Good q w (getOperationHistory_onAccountInfo q requestOptions caller [e; d] w).
Proof.
  intros Hpair Hw. unfold getOperationHistory_onAccountInfo, JS.arg. cbn [nth].
  destruct (JS.nullish e) eqn:He; cbn [negb].
  - destruct (JS.nullish d) eqn:Hd.
    + apply Good_caller; [ assumption | intros ? ? [= <- <-]; now left ].
    + good_simple.
  - apply Good_caller; [ assumption | intros ? ? [= <- <-]; now left ].
Qed.

Lemma Good_getOperationStatistics_onAccountInfo
  (requestOptions e d : JSVal) (w : World) :
  contract_pair e d -> uncaught w = None ->
  Good q w (getOperationStatistics_onAccountInfo q requestOptions caller [e; d] w).
Proof.
  intros Hpair Hw. unfold getOperationStatistics_onAccountInfo, JS.arg. cbn [nth].
  destruct (JS.nullish e) eqn:He; cbn [negb].
  - destruct (JS.nullish d) eqn:Hd.
    + apply Good_caller; [ assumption | intros ? ? [= <- <-]; now left ].
    + good_simple.
  - apply Good_caller; [ assumption | intros ? ? [= <- <-]; now left ].
Qed.

Lemma Good_toMobilePhone_onDetect (requestOptions e d : JSVal) (w : World) :
  uncaught w = None ->
  Good q w (toMobilePhone_onDetect q requestOptions caller [e; d] w).
Proof.
  intros Hw. unfold toMobilePhone_onDetect, not_detected, JS.arg. cbn [nth].
  destruct (JS.truthy e); [ now apply Good_abrupt |].
  unfold bind at 1 2, get_prop at 1.
  destruct (JS.get d "code") as [x | code]; cbn; [ now apply Good_abrupt |].
  unfold get_prop at 1.
  destruct (JS.get code "value") as [x | value]; cbn; [ now apply Good_abrupt |].
  destruct (JS.loose_eq_2 value); [ now apply Good_abrupt |].
  good_simple.
Qed.

Lemma Good_toCard_onDetect (requestOptions e d : JSVal) (w : World) :
  uncaught w = None ->
  Good q w (toCard_onDetect q requestOptions caller [e; d] w).
Proof.
  intros Hw. unfold toCard_onDetect, not_detected, JS.arg. cbn [nth].
  assert (Hone : Good q w (caller [JError "Wrong card number!"] w)).
  { apply Good_caller; [ assumption | discriminate ]. }
  destruct (JS.truthy e); [ exact Hone |].
  unfold bind at 1 2, get_prop at 1.
  destruct (JS.get d "code") as [x | code]; cbn; [ now apply Good_abrupt |].
  unfold get_prop at 1.
  destruct (JS.get code "value") as [x | value]; cbn; [ now apply Good_abrupt |].
  destruct (JS.loose_eq_2 value); [ exact Hone |].
  good_simple.
Qed.

(** Every call of a public method, on any transport. *)
Lemma exec_good (op : Op) (tr : Transport) (now : Z) :
  Good q (boot tr now) (exec q op tr now).
Proof.
  assert (Hboot : uncaught (boot tr now) = None) by reflexivity.
  unfold exec, run. generalize dependent (boot tr now). intros w Hw.
  destruct op; cbn [call].
  all: try (unfold getIdentificationData, identifyWallet, getAccountInfo,
    getBalance, getTransactionInfo, getReceipt, toWallet, toBank,
    checkCommission, checkOnlineCommission, detectCard, getCrossRates,
    addWebHook, removeWebHook, getWebHookSecret, requestNewWebHookSecret,
    getActiveWebHook, testActiveWebHook; good_simple).
  - (* getOperationHistory *)
    unfold getOperationHistory, getAccountInfo.
    apply Good_exchange; [ assumption | left; apply carries_headers |].
    intros. now apply Good_getOperationHistory_onAccountInfo.
  - (* getOperationStatistics *)
    unfold getOperationStatistics, getAccountInfo.
    apply Good_exchange; [ assumption | left; apply carries_headers |].
    intros. now apply Good_getOperationStatistics_onAccountInfo.
  - (* toMobilePhone *)
    unfold toMobilePhone. apply Good_get; [ assumption | intros account _ ].
    unfold detectOperator. apply Good_get; [ assumption | intros h Hh ].
    cbn in Hh. injection Hh as <-.
    apply Good_exchange; [ assumption | right; apply built_by_detectOperator |].
    intros. now apply Good_toMobilePhone_onDetect.
  - (* toCard *)
    unfold toCard. apply Good_get; [ assumption | intros account _ ].
    unfold detectCard.
    apply Good_exchange; [ assumption | left; apply carries_headers |].
    intros. now apply Good_toCard_onDetect.
Qed.

End Runs.

(* ================================================================= *)
(** ** One exchange, whoever listens *)

Lemma request_respond_unfold
  (verb : Verb) (options : JSVal) (cb : Callback) (w : World) :
  request verb options (respond cb) w
  = match JS.get (snd (transport w (sent w) (verb, options))) "body" with
    | inl e => (Normal tt, set_uncaught e (add_sent (verb, options) w))
    | inr body =>
        from_event_loop
          (processRequestCallback (fst (transport w (sent w) (verb, options)))
             body cb (add_sent (verb, options) w))
    end.
Proof.
  unfold request, respond, JS.arg, bind, get_prop. cbn [nth fst snd].
  now destruct (JS.get (snd (transport w (sent w) (verb, options))) "body").
Qed.

Lemma processRequestCallback_unfold
  (error body : JSVal) (cb : Callback) (w : World) :
  processRequestCallback error body cb w
  = if JS.nullish error then
      match JS.get body "errorCode" with
      | inl e => (Abrupt e, add_normalized (error, body) w)
      | inr code =>
          cb (if JS.nullish code then [JNull; body] else [body; JNull])
             (add_normalized (error, body) w)
      end
    else cb [error; JNull] (add_normalized (error, body) w).
Proof.
  unfold processRequestCallback, enter_normalization, bind, get_prop. cbn.
  destruct (JS.nullish error); cbn; [| reflexivity ].
  destruct (JS.get body "errorCode") as [e | code]; cbn; [ reflexivity |].
  now destruct (JS.nullish code).
Qed.

Lemma from_event_loop_sent (r : Completion unit * World) :
  sent (snd (from_event_loop r)) = sent (snd r).
Proof. now destruct r as [[[] | e] w]. Qed.

Lemma from_event_loop_delivered (r : Completion unit * World) :
  delivered (snd (from_event_loop r)) = delivered (snd r).
Proof. now destruct r as [[[] | e] w]. Qed.

Lemma from_event_loop_raised (r : Completion unit * World) :
  raised (from_event_loop r) = raised r.
Proof. now destruct r as [[[] | e] w]. Qed.

Lemma get_inl (v : JSVal) (n : string) (e : Exn) :
  JS.get v n = inl e -> e = TypeError v n /\ JS.nullish v = true.
Proof. destruct v; cbn; intros [= <-]; auto. Qed.

(* ================================================================= *)
(** ** Runs accounted for exactly *)

Lemma Exact_abrupt (card : bool) (w : World) (e : Exn) :
  Exact card w (Abrupt e, w).
Proof.
  exists [], [], []. cbn. rewrite !app_nil_r.
  repeat split; auto; left; constructor.
Qed.

Lemma Exact_caller (card : bool) (args : list JSVal) (w : World) :
  delivery_ok card args -> Exact card w (caller args w).
Proof.
  intros Hargs. exists [], [], [args]. cbn. rewrite !app_nil_r.
  repeat split; auto; left; constructor.
Qed.

Lemma Exact_get (card : bool) (v : JSVal) (n : string) (k : JSVal -> M unit)
  (w : World) :
  (forall x, JS.get v n = inr x -> Exact card w (k x w)) ->
  Exact card w ((x <- get_prop v n ;; k x) w).
Proof.
  intros Hk. unfold bind, get_prop.
  destruct (JS.get v n) as [e | x]; cbn.
  - apply Exact_abrupt.
  - now apply Hk.
Qed.

(** A run that follows an answered and routed request. *)
Lemma Exact_after (card : bool) (rq : Request) (body : JSVal) (w : World)
  (r : Completion unit * World) :
  JS.get (snd (transport w (sent w) rq)) "body" = inr body ->
  Exact card
    (add_normalized (fst (transport w (sent w) rq), body) (add_sent rq w)) r ->
  Exact card w (from_event_loop r).
Proof.
  intros Hbody (news & norms & ds & Ht & Hs & Hn & Hd & Hok & Hrouted).
  exists (rq :: news), ((fst (transport w (sent w) rq), body) :: norms), ds.
  rewrite from_event_loop_sent, from_event_loop_delivered,
    from_event_loop_raised.
  assert (Htr : transport (snd (from_event_loop r)) = transport (snd r))
    by (destruct r as [[[] | e] w']; reflexivity).
  assert (Hnorm : normalized (snd (from_event_loop r)) = normalized (snd r))
    by (destruct r as [[[] | e] w']; reflexivity).
  rewrite Htr, Hnorm, Ht, Hs, Hn, Hd. cbn in *. rewrite <- !app_assoc. cbn.
  assert (Hhead : routed_as (transport w (sent w) rq)
                    (fst (transport w (sent w) rq), body))
    by (split; [ reflexivity | exact Hbody ]).
  do 5 (split; [ auto |]).
  destruct Hrouted as [Hall | (before & rq' & -> & Hnone & Hall & Hraised & ->)].
  - left. now constructor.
  - right. exists (rq :: before), rq'. cbn.
    rewrite <- app_assoc in Hnone, Hraised. cbn in Hnone, Hraised.
    repeat split; auto; now constructor.
Qed.

(** One exchange answered through [respond]. *)
Lemma Exact_exchange (card : bool) (verb : Verb) (options : JSVal)
  (cb : Callback) (w : World) :
  (forall e d w', contract_pair e d -> Exact card w' (cb [e; d] w')) ->
  Exact card w (request verb options (respond cb) w).
Proof.
  intros Hcb. rewrite request_respond_unfold.
  destruct (JS.get _ "body") as [e | body] eqn:Hbody.
  - destruct (get_inl _ _ _ Hbody) as [-> Hnone].
    exists [(verb, options)], [], []. cbn. rewrite !app_nil_r.
    repeat split; auto.
    right. exists [], (verb, options). cbn. rewrite !app_nil_r.
    repeat split; auto; constructor.
  - apply (Exact_after card (verb, options) body w _ Hbody).
    rewrite processRequestCallback_unfold.
    destruct (JS.nullish _) eqn:Herr.
    + destruct (JS.get body "errorCode") as [e | code] eqn:Hcode;
        [ apply Exact_abrupt |].
      pose proof (get_inr_not_nullish _ _ _ Hcode) as Hb.
      destruct (JS.nullish code); apply Hcb; [ now right | now left ].
    + apply Hcb. now left.
Qed.

Ltac exact_pair :=
  left; do 2 eexists; split; [ reflexivity | auto ].

Ltac exact_prelude :=
  repeat first
    [ apply Exact_get; intros ? ?
    | match goal with
      | |- Exact _ _ ((_ <- payment_id ;; _) _) =>
          change (bind payment_id ?k ?w)
            with (k (JStr (JS.Number_toString (1000 * clock w))) w); cbv beta
      end ].

Ltac exact_direct :=
  exact_prelude;
  apply Exact_exchange;
  intros ?e ?d ?w' ?Hpair; apply Exact_caller; exact_pair.

Lemma Exact_getOperationHistory_onAccountInfo
  (card : bool) (q : Qiwi) (requestOptions e d : JSVal) (w : World) :
  contract_pair e d ->
  Exact card w (getOperationHistory_onAccountInfo q requestOptions caller [e; d] w).
Proof.
  intros Hpair. unfold getOperationHistory_onAccountInfo, JS.arg. cbn [nth].
  destruct (JS.nullish e) eqn:He; cbn [negb].
  - destruct (JS.nullish d) eqn:Hd.
    + apply Exact_caller. exact_pair. now left.
    + exact_direct.
  - apply Exact_caller. exact_pair. now left.
Qed.

Lemma Exact_getOperationStatistics_onAccountInfo
  (card : bool) (q : Qiwi) (requestOptions e d : JSVal) (w : World) :
  contract_pair e d ->
  Exact card w
    (getOperationStatistics_onAccountInfo q requestOptions caller [e; d] w).
Proof.
  intros Hpair. unfold getOperationStatistics_onAccountInfo, JS.arg. cbn [nth].
  destruct (JS.nullish e) eqn:He; cbn [negb].
  - destruct (JS.nullish d) eqn:Hd.
    + apply Exact_caller. exact_pair. now left.
    + exact_direct.
  - apply Exact_caller. exact_pair. now left.
Qed.

Lemma Exact_not_detected (card : bool) (err data : JSVal) (k : bool -> M unit)
  (w : World) :
  (forall b, Exact card w (k b w)) ->
  Exact card w ((failed <- not_detected err data ;; k failed) w).
Proof.
  intros Hk. unfold not_detected, bind, get_prop, ret.
  destruct (JS.truthy err); [ apply Hk |].
  destruct (JS.get data "code") as [e | code]; cbn; [ apply Exact_abrupt |].
  destruct (JS.get code "value") as [e | value]; cbn; [ apply Exact_abrupt |].
  apply Hk.
Qed.

Lemma Exact_toMobilePhone_onDetect
  (card : bool) (q : Qiwi) (requestOptions : JSVal) (args : list JSVal)
  (w : World) :
  Exact card w (toMobilePhone_onDetect q requestOptions caller args w).
Proof.
  unfold toMobilePhone_onDetect.
  apply Exact_not_detected. intros [|]; [ apply Exact_abrupt |].
  exact_direct.
Qed.

Lemma Exact_toCard_onDetect
  (q : Qiwi) (requestOptions : JSVal) (args : list JSVal) (w : World) :
  Exact true w (toCard_onDetect q requestOptions caller args w).
Proof.
  unfold toCard_onDetect.
  apply Exact_not_detected. intros [|].
  - apply Exact_caller. right. split; reflexivity.
  - exact_direct.
Qed.

(** Every call of a public method, on any transport, is accounted for
    exactly; only send-to-card may call back with a lone error. *)
Lemma exec_exact (q : Qiwi) (op : Op) (tr : Transport) (now : Z) :
  Exact (is_toCard op) (boot tr now) (exec q op tr now).
Proof.
  unfold exec, run. generalize (boot tr now). intros w.
  destruct op; cbn [call is_toCard].
  all: try (unfold getIdentificationData, identifyWallet, getAccountInfo,
    getBalance, getTransactionInfo, getReceipt, toWallet, toBank,
    checkCommission, checkOnlineCommission, detectCard, getCrossRates,
    addWebHook, removeWebHook, getWebHookSecret, requestNewWebHookSecret,
    getActiveWebHook, testActiveWebHook; exact_direct).
  - unfold getOperationHistory, getAccountInfo. apply Exact_exchange.
    intros. now apply Exact_getOperationHistory_onAccountInfo.
  - unfold getOperationStatistics, getAccountInfo. apply Exact_exchange.
    intros. now apply Exact_getOperationStatistics_onAccountInfo.
  - unfold toMobilePhone. apply Exact_get; intros account _.
    unfold detectOperator. apply Exact_get; intros h _.
    apply Exact_exchange. intros. apply Exact_toMobilePhone_onDetect.
  - unfold toCard. apply Exact_get; intros account _.
    unfold detectCard. apply Exact_exchange.
    intros. apply Exact_toCard_onDetect.
Qed.

(* ================================================================= *)
(** ** The normalization contract *)

Lemma request_sent (verb : Verb) (options : JSVal) (w : World) :
  sent (snd (request verb options (respond caller) w))
  = (sent w ++ [(verb, options)])%list.
Proof. symbolic; reflexivity. Qed.

Lemma app_one_neq {A : Type} (l : list A) (x : A) : l <> (l ++ [x])%list.
Proof.
  intros H. apply (f_equal (@List.length A)) in H.
  rewrite length_app in H. cbn in H. lia.
Qed.

(** What an exchange handed to the caller's callback, it hands to any
    callback: the transport's answer does not depend on who listens.  The
    arguments are those of the contract. *)
Lemma exchange_yields (verb : Verb) (options : JSVal) (w : World)
  (args : list JSVal) :
  delivered (snd (request verb options (respond caller) w))
  = (delivered w ++ [args])%list ->
  (exists e d, args = [e; d] /\ contract_pair e d)
  /\ exists entry,
       forall cb,
         request verb options (respond cb) w
         = from_event_loop
             (cb args (add_normalized entry (add_sent (verb, options) w))).
Proof.
  unfold request, respond, JS.arg. cbn [nth fst snd].
  set (error := fst (transport w (sent w) (verb, options))).
  set (response := snd (transport w (sent w) (verb, options))).
  unfold processRequestCallback, enter_normalization, bind, get_prop, caller.
  destruct (JS.get response "body") as [e | body]; cbn.
  { intros H. now apply app_one_neq in H. }
  destruct (JS.nullish error) eqn:Herr; cbn.
  - destruct (JS.get body "errorCode") as [e | code] eqn:Hcode; cbn.
    { intros H. now apply app_one_neq in H. }
    pose proof (get_inr_not_nullish _ _ _ Hcode) as Hbody.
    destruct (JS.nullish code); cbn; intros H; apply app_inv_head in H;
      injection H as <-.
    + split; [ exists JNull, body; split; [ reflexivity | now right ] |].
      exists (error, body). reflexivity.
    + split; [ exists body, JNull; split; [ reflexivity | now left ] |].
      exists (error, body). reflexivity.
  - intros H. apply app_inv_head in H. injection H as <-.
    split; [ exists error, JNull; split; [ reflexivity | now left ] |].
    exists (error, body). reflexivity.
Qed.




(** A body with an error code that arrives with a transport error: the
    transport error is delivered, not the body. *)
Lemma error_code_with_transport_error_counterexample :
  let r := processRequestCallback Sample.transport_error Sample.api_error caller
             (boot (always JNull JNull) Sample.now) in
  JS.get Sample.api_error "errorCode" = inr (JStr "auth.forbidden")
  /\ deliveries r = [[Sample.transport_error; JNull]]
  /\ deliveries r <> [[Sample.api_error; JNull]].
Proof. cbn. repeat split; discriminate. Qed.

(** C7 (amended).  For a response body with a defined error-code field the
    normalization output is [(body, null)] when no transport error occurred
    on that call; when a transport error occurred the output is
    [(error, null)], whatever the body. *)
Theorem error_code_body_is_the_error (error body code : JSVal) (w : World) :
  JS.get body "errorCode" = inr code ->
  JS.nullish code = false ->
  (JS.nullish error = true ->
   processRequestCallback error body caller w
   = (Normal tt, add_delivered [body; JNull] (add_normalized (error, body) w)))
  /\ (JS.nullish error = false ->
      processRequestCallback error body caller w
      = (Normal tt, add_delivered [error; JNull] (add_normalized (error, body) w))).
Proof.
  intros Hc Hn. split; intros He.
  - rewrite (processRequestCallback_body _ _ _ _ He Hc). now rewrite Hn.
  - now apply processRequestCallback_error.
Qed.

Lemma error_code_body_is_the_error_witness :
  let w := boot (always JNull JNull) Sample.now in
  processRequestCallback JNull Sample.api_error caller w
  = (Normal tt,
     add_delivered [Sample.api_error; JNull]
       (add_normalized (JNull, Sample.api_error) w))
  /\ processRequestCallback Sample.transport_error Sample.api_error caller w
     = (Normal tt,
        add_delivered [Sample.transport_error; JNull]
          (add_normalized (Sample.transport_error, Sample.api_error) w)).
Proof.
  intros w. split.
  - exact (proj1 (error_code_body_is_the_error JNull Sample.api_error
                    (JStr "auth.forbidden") w eq_refl eq_refl) eq_refl).
  - exact (proj2 (error_code_body_is_the_error Sample.transport_error
                    Sample.api_error (JStr "auth.forbidden") w eq_refl eq_refl)
             eq_refl).
Defined.

(** C10.  The normalization routine assumes a body whenever the transport
    error is null: entered with a null or undefined error and a null or
    undefined body, it reads the body's error-code field unguarded and
    raises before calling the callback; an operation in which that happens
    ends with that TypeError and without any call of its callback. *)
Theorem normalization_assumes_a_body (error body : JSVal) :
  JS.nullish error = true ->
  JS.nullish body = true ->
  (forall w,
     processRequestCallback error body caller w
     = (Abrupt (TypeError body "errorCode"), add_normalized (error, body) w))
  /\ (forall q op tr now,
        In (error, body) (normalizations (exec q op tr now)) ->
        raised (exec q op tr now) = Some (TypeError body "errorCode")
        /\ deliveries (exec q op tr now) = []).
Proof.
  intros He Hb. split.
  - intros w. now apply processRequestCallback_no_body.
  - intros q op tr now Hin.
    destruct (exec_good q op tr now)
      as (news & norms & ds & _ & _ & Hn & Hd & _ & _ & _ & _ & Hnb & _).
    unfold normalizations in Hin. rewrite Hn in Hin. cbn in Hin.
    destruct (Hnb error body Hin He Hb) as [Hr Hds].
    split; [ exact Hr |]. unfold deliveries. rewrite Hd, Hds. reflexivity.
Qed.

Lemma normalization_assumes_a_body_witness :
  let r := exec Sample.client GetBalance
             (always JNull (response_with JNull)) Sample.now in
  raised r = Some (TypeError JNull "errorCode") /\ deliveries r = [].
Proof.
  intros r.
  apply (proj2 (normalization_assumes_a_body JNull JNull eq_refl eq_refl)).
  cbn. left. reflexivity.
Defined.

(* ================================================================= *)
(** ** The callback contract *)

(** Send-to-mobile-phone with an operator that is not detected: the
    callback is never called. *)
Lemma callback_not_invoked_counterexample :
  let r := exec Sample.client (ToMobilePhone Sample.payment)
             (always JNull (response_with Sample.not_found)) Sample.now in
  deliveries r = []
  /\ List.length (deliveries r) <> 1%nat
  /\ raised r = Some (Thrown (JError "Can't detect operator.")).
Proof. cbn. repeat split; discriminate. Qed.

(** C2 (amended).  For every public operation and every transport outcome
    the completion callback is invoked at most once per call, and exactly
    once when the call raises nothing (send-to-mobile-phone raises when the
    operator is not detected, and a property read on a null or undefined
    value raises); every invocation passes an (error, result) pair that is
    either a non-null error with a null result or a null error with a
    non-null result, never both non-null, the one exception being
    send-to-card, which may call back with its "Wrong card number!" error
    as the only argument. *)
Theorem callback_at_most_once (q : Qiwi) (op : Op) (tr : Transport) (now : Z) :
  let r := exec q op tr now in
  (List.length (deliveries r) <= 1)%nat
  /\ (raised r = None -> List.length (deliveries r) = 1%nat)
  /\ (forall e d, In [e; d] (deliveries r) -> contract_pair e d)
  /\ (forall args,
        In args (deliveries r) ->
        (exists e d, args = [e; d] /\ contract_pair e d)
        \/ (exists requestOptions,
              op = ToCard requestOptions
              /\ args = [JError "Wrong card number!"])).
Proof.
  destruct (exec_good q op tr now)
    as (news & norms & ds & _ & _ & _ & Hd & _ & Hl & Hone & Hp & _).
  cbn zeta. unfold deliveries. rewrite Hd. cbn.
  do 3 (split; [ auto |]).
  destruct (exec_exact q op tr now)
    as (_ & _ & ds' & _ & _ & _ & Hd' & Hok & _).
  rewrite Hd in Hd'. cbn in Hd'. subst ds'.
  intros args Hin.
  destruct (proj1 (Forall_forall _ _) Hok args Hin) as [Hpair | [Hcard ->]].
  - now left.
  - right. destruct op; try discriminate Hcard. eauto.
Qed.

Lemma callback_at_most_once_witness :
  let r := exec Sample.client GetBalance
             (always JNull (response_with Sample.account_info)) Sample.now in
  List.length (deliveries r) = 1%nat
  /\ contract_pair JNull Sample.account_info
  /\ ((exists e d,
         [JNull; Sample.account_info] = [e; d] /\ contract_pair e d)
      \/ (exists requestOptions,
            GetBalance = ToCard requestOptions
            /\ [JNull; Sample.account_info] = [JError "Wrong card number!"])).
Proof.
  intros r.
  destruct (callback_at_most_once Sample.client GetBalance
              (always JNull (response_with Sample.account_info)) Sample.now)
    as (_ & Hone & Hpair & Hevery).
  split; [| split ].
  - apply Hone. reflexivity.
  - apply Hpair. cbn. left. reflexivity.
  - apply Hevery. cbn. left. reflexivity.
Defined.

(* ================================================================= *)
(** ** The authorization header *)

Lemma built_without_headers_has_none (rq : Request) :
  built_without_headers rq ->
  JS.get (snd rq) "headers" = inr JUndefined /\ authorization rq = None.
Proof.
  intros [(recipient & tr & now & Hin)
         | [(recipient & ro & tr & now & Hin) | (phone & tr & now & Hin)]].
  - unfold run, checkCommission in Hin. rewrite request_sent in Hin.
    destruct Hin as [<- | []]. split; reflexivity.
  - unfold run, checkOnlineCommission, bind, get_prop in Hin.
    destruct (JS.get ro "account"); cbn in Hin; [ contradiction |].
    destruct (JS.get ro "amount"); cbn in Hin; [ contradiction |].
    rewrite request_sent in Hin.
    destruct Hin as [<- | []]. split; reflexivity.
  - unfold run, detectOperator, bind, get_prop in Hin. cbn in Hin.
    rewrite request_sent in Hin.
    destruct Hin as [<- | []]. split; reflexivity.
Qed.

(** The online-commission request has no authorization header, and it is
    neither a commission-lookup request nor an operator-detection request:
    a third endpoint without the header. *)
Lemma online_commission_counterexample :
  let r := exec Sample.client (CheckOnlineCommission (JNum 99) Sample.payment)
             (always JNull JNull) Sample.now in
  In Sample.online_commission_request (requests r)
  /\ authorization Sample.online_commission_request = None
  /\ authorization Sample.online_commission_request <> Some (bearer Sample.client)
  /\ ~ (exists recipient,
          built_by (checkCommission recipient) Sample.online_commission_request)
  /\ ~ (exists phone,
          built_by (detectOperator phone) Sample.online_commission_request).
Proof.
  cbn zeta. split; [ cbn; left; reflexivity |].
  split; [ reflexivity |]. split; [ discriminate |]. split.
  - intros (recipient & tr & now & Hin).
    unfold run, checkCommission in Hin. rewrite request_sent in Hin.
    destruct Hin as [H | []]. discriminate H.
  - intros (phone & tr & now & Hin).
    unfold run, detectOperator, bind, get_prop in Hin. cbn in Hin.
    rewrite request_sent in Hin.
    destruct Hin as [H | []]. discriminate H.
Qed.

(** C6 (amended).  Every request descriptor built by any operation carries
    the Authorization header derived from the configured token
    (["Bearer " + token]), with exactly three exceptions: the requests of
    the commission-lookup endpoint, of the online-commission endpoint and of
    the operator-detection endpoint, which are constructed without it. *)
Theorem authorization_header
  (q : Qiwi) (op : Op) (tr : Transport) (now : Z) (rq : Request) :
  In rq (requests (exec q op tr now)) ->
  (authorization rq = Some (bearer q) \/ built_without_headers rq)
  /\ (built_without_headers rq ->
      JS.get (snd rq) "headers" = inr JUndefined /\ authorization rq = None).
Proof.
  intros Hin. split; [| apply built_without_headers_has_none ].
  destruct (exec_good q op tr now)
    as (news & norms & ds & _ & Hs & _ & _ & _ & _ & _ & _ & _ & Ha).
  unfold requests in Hin. rewrite Hs in Hin. now apply Ha.
Qed.

Lemma authorization_header_witness :
  (authorization Sample.wallet_request = Some (bearer Sample.client)
   \/ built_without_headers Sample.wallet_request)
  /\ JS.get (snd Sample.online_commission_request) "headers" = inr JUndefined
  /\ authorization Sample.online_commission_request = None.
Proof.
  split.
  - apply (authorization_header Sample.client (ToWallet Sample.payment)
             (always JNull JNull) Sample.now Sample.wallet_request).
    cbn. left. reflexivity.
  - apply (authorization_header Sample.client
             (CheckOnlineCommission (JNum 99) Sample.payment)
             (always JNull JNull) Sample.now Sample.online_commission_request).
    + cbn. left. reflexivity.
    + right; left.
      exists (JNum 99), Sample.payment, (always JNull JNull), Sample.now.
      cbn. left. reflexivity.
Defined.

(* ================================================================= *)
(** ** Send-to-wallet *)

(** The string of a number is a decimal numeral that reads back as it. *)
Lemma Number_toString_reads_back (n : Z) :
  option_map Z.of_int (NilZero.int_of_string (JS.Number_toString n)) = Some n.
Proof.
  unfold JS.Number_toString. rewrite NilZero.isi.
  - cbn. f_equal. apply DecimalZ.of_to.
  - destruct n; cbn; intros [= H]; now apply Unsigned.to_uint_nonnil in H.
  - destruct n; cbn; intros [= H]; now apply Unsigned.to_uint_nonnil in H.
Qed.

(** C8.  For every invocation of send-to-wallet (with a clock reading whose
    thousandfold is an exact JavaScript number), the posted request body
    sets [sum.currency] to ["643"], [source] to ["account_643"],
    [paymentMethod.type] to ["Account"], and an [id] that is the decimal
    string of the current time in milliseconds multiplied by 1000; with
    request options that are not null/undefined exactly one request is
    posted.  The decimal string is the one that reads back as that
    number. *)
Theorem toWallet_body (q : Qiwi) (requestOptions : JSVal) (tr : Transport) (now : Z) :
  0 <= now ->
  1000 * now < 2 ^ 53 ->
  let r := exec q (ToWallet requestOptions) tr now in
  (JS.nullish requestOptions = false -> exists rq, requests r = [rq])
  /\ (forall rq, In rq (requests r) ->
        fst rq = POST
        /\ path (snd rq) ["body"; "sum"; "currency"] = Some (JStr "643")
        /\ path (snd rq) ["body"; "source"] = Some (JStr "account_643")
        /\ path (snd rq) ["body"; "paymentMethod"; "type"] = Some (JStr "Account")
        /\ exists id,
             path (snd rq) ["body"; "id"] = Some (JStr id)
             /\ id = NilZero.string_of_int (Z.to_int (1000 * now))
             /\ option_map Z.of_int (NilZero.int_of_string id)
                = Some (1000 * now)).
Proof.
  intros _ _. cbn zeta.
  unfold exec, run, call, toWallet, requests, payment_id, Date_now, bind, ret,
    get_prop. cbn [boot clock].
  split.
  - intros Hro.
    destruct (get_of_value requestOptions "amount" Hro) as [amount ->].
    destruct (get_of_value requestOptions "comment" Hro) as [comment ->].
    destruct (get_of_value requestOptions "account" Hro) as [account ->].
    cbn. rewrite request_sent. cbn. eauto.
  - intros rq.
    destruct (JS.get requestOptions "amount"); cbn; [ contradiction |].
    destruct (JS.get requestOptions "comment"); cbn; [ contradiction |].
    destruct (JS.get requestOptions "account"); cbn; [ contradiction |].
    rewrite request_sent. intros [<- | []].
    repeat split; try reflexivity.
    exists (JS.Number_toString (1000 * now)).
    repeat split; try reflexivity. apply Number_toString_reads_back.
Qed.

Lemma toWallet_body_witness :
  let r := exec Sample.client (ToWallet Sample.payment)
             (always JNull (response_with (JObj []))) Sample.now in
  requests r = [Sample.wallet_request]
  /\ path (snd Sample.wallet_request) ["body"; "sum"; "currency"] = Some (JStr "643")
  /\ exists id,
       path (snd Sample.wallet_request) ["body"; "id"] = Some (JStr id)
       /\ id = "1700000000000000"
       /\ option_map Z.of_int (NilZero.int_of_string id) = Some 1700000000000000.
Proof.
  intros r.
  assert (Hlo : 0 <= Sample.now) by (unfold Sample.now; lia).
  assert (Hhi : 1000 * Sample.now < 2 ^ 53) by (unfold Sample.now; lia).
  destruct (toWallet_body Sample.client Sample.payment
              (always JNull (response_with (JObj []))) Sample.now Hlo Hhi)
    as [Hone Hbody].
  split; [ reflexivity |].
  destruct (Hbody Sample.wallet_request) as (_ & Hcur & _ & _ & Hid).
  - cbn. left. reflexivity.
  - split; [ exact Hcur | exact Hid ].
Defined.

(* ================================================================= *)
(** ** The two-step operations *)

(** C3.  For get-operation-history and get-operation-statistics, if the
    initial get-account-info step yields a non-null error, the second
    (history/statistics) request is never issued and the callback receives
    exactly that account-info error, unchanged, with a null result. *)
Theorem account_info_error_is_propagated
  (q : Qiwi) (requestOptions : JSVal) (tr : Transport) (now : Z)
  (err data : JSVal) :
  deliveries (exec q GetAccountInfo tr now) = [[err; data]] ->
  JS.nullish err = false ->
  forall op,
    op = GetOperationHistory requestOptions
    \/ op = GetOperationStatistics requestOptions ->
    let r := exec q op tr now in
    deliveries r = [[err; JNull]]
    /\ requests r = requests (exec q GetAccountInfo tr now)
    /\ List.length (requests r) = 1%nat
    /\ raised r = None.
Proof.
  intros Hstep Herr op Hop. cbn zeta.
  unfold deliveries, requests, raised, exec, run in *.
  cbn [call] in *. unfold getAccountInfo in *.
  rewrite request_sent.
  apply (exchange_yields _ _ (boot tr now)) in Hstep as [_ [entry Hany]].
  destruct Hop as [-> | ->]; cbn [call];
    unfold getOperationHistory, getOperationStatistics, getAccountInfo;
    rewrite Hany;
    unfold getOperationHistory_onAccountInfo,
      getOperationStatistics_onAccountInfo, JS.arg; cbn [nth];
    rewrite Herr; cbn; auto.
Qed.

Lemma account_info_error_is_propagated_witness :
  let tr := always JNull (response_with Sample.api_error) in
  let r := exec Sample.client (GetOperationHistory Sample.history_query) tr
             Sample.now in
  deliveries r = [[Sample.api_error; JNull]]
  /\ requests r = requests (exec Sample.client GetAccountInfo tr Sample.now)
  /\ List.length (requests r) = 1%nat
  /\ raised r = None.
Proof.
  intros tr r.
  apply (account_info_error_is_propagated Sample.client Sample.history_query tr
           Sample.now Sample.api_error JNull).
  - reflexivity.
  - reflexivity.
  - left. reflexivity.
Defined.

(** The account-info step never hands its listener a null error together
    with a null or undefined payload: the normalization routine raises on
    such a body before it calls anyone.  The [data == null] guard of the
    two-step methods is therefore never taken. *)
Lemma account_info_never_yields_nothing
  (q : Qiwi) (tr : Transport) (now : Z) (err data : JSVal) :
  deliveries (exec q GetAccountInfo tr now) = [[err; data]] ->
  JS.nullish err = true ->
  JS.nullish data = false.
Proof.
  intros Hstep Herr.
  unfold deliveries, exec, run in Hstep. cbn [call] in Hstep.
  unfold getAccountInfo in Hstep.
  apply (exchange_yields _ _ (boot tr now)) in Hstep
    as [(e0 & d0 & [= <- <-] & Hpair) _].
  destruct Hpair as [[Hn _] | [_ Hd]]; [ congruence | exact Hd ].
Qed.

(** C9 (at the failing input).  The account-info request is answered
    without error and with no data (a null body, or an undefined one):
    get-operation-history and get-operation-statistics do not deliver the
    "Can not retrieve account info" error; the normalization of the
    account-info answer raises a TypeError first, the callback is never
    called, and only the account-info request is issued. *)
Theorem no_account_info_calls_nobody_back :
  forall body op,
    body = JNull \/ body = JUndefined ->
    op = GetOperationHistory Sample.history_query
    \/ op = GetOperationStatistics Sample.history_query ->
    let tr := always JNull (response_with body) in
    let r := exec Sample.client op tr Sample.now in
    deliveries r = []
    /\ deliveries r <> [[JError "Can not retrieve account info"; JNull]]
    /\ raised r = Some (TypeError body "errorCode")
    /\ requests r = requests (exec Sample.client GetAccountInfo tr Sample.now)
    /\ List.length (requests r) = 1%nat.
Proof.
  intros body op [-> | ->] [-> | ->]; cbn; repeat split; discriminate.
Qed.

Lemma no_account_info_calls_nobody_back_witness :
  let tr := always JNull (response_with JNull) in
  let r := exec Sample.client (GetOperationHistory Sample.history_query) tr
             Sample.now in
  deliveries r = []
  /\ deliveries r <> [[JError "Can not retrieve account info"; JNull]]
  /\ raised r = Some (TypeError JNull "errorCode")
  /\ requests r = requests (exec Sample.client GetAccountInfo tr Sample.now)
  /\ List.length (requests r) = 1%nat.
Proof.
  exact (no_account_info_calls_nobody_back JNull
           (GetOperationHistory Sample.history_query)
           (or_introl eq_refl) (or_introl eq_refl)).
Defined.

(* ================================================================= *)
(** ** Detection before a payment *)

(** C4.  In send-to-mobile-phone, if operator detection returns an error or
    a status code equal to ["2"], the operation fails by raising an
    unrecoverable error: the call itself has returned, the exception is
    raised from the transport's callback, the completion callback is not
    invoked, and no payment request is issued.  When the detection error is
    truthy, or there is none and the status is ["2"], the exception is
    [Error("Can't detect operator.")]. *)
Theorem operator_not_detected_raises
  (q : Qiwi) (requestOptions account : JSVal) (tr : Transport) (now : Z)
  (err data : JSVal) :
  JS.get requestOptions "account" = inr account ->
  let detection :=
    run (detectOperator (JStr ("7" ++ JS.ToString account))) tr now in
  deliveries detection = [[err; data]] ->
  JS.nullish err = false
  \/ (exists value,
        path data ["code"; "value"] = Some value /\ JS.loose_eq_2 value = true) ->
  let r := exec q (ToMobilePhone requestOptions) tr now in
  fst r = Normal tt
  /\ (exists e,
        raised r = Some e
        /\ (JS.truthy err = true \/ JS.nullish err = true ->
            e = Thrown (JError "Can't detect operator.")))
  /\ deliveries r = []
  /\ requests r = requests detection
  /\ List.length (requests r) = 1%nat.
Proof.
  intros Hacc detection Hstep Hfail. subst detection. cbn zeta.
  unfold deliveries, requests, raised, exec, run in *. cbn [call].
  unfold toMobilePhone, bind, get_prop. rewrite Hacc. cbn [ret].
  unfold detectOperator, bind, get_prop in *. cbn in Hstep |- *.
  rewrite request_sent.
  apply (exchange_yields _ _ (boot tr now)) in Hstep
    as [(e0 & d0 & [= <- <-] & Hpair) [entry Hany]].
  rewrite Hany.
  unfold toMobilePhone_onDetect, not_detected, JS.arg, bind, get_prop, throw.
  cbn [nth].
  destruct (JS.truthy err) eqn:Htruthy; cbn.
  { repeat split; eauto. }
  assert (Hdata : JS.nullish err = false -> data = JNull).
  { intros Hn. destruct Hpair as [[_ ->] | [-> _]]; [ reflexivity | discriminate Hn ]. }
  destruct (JS.get data "code") as [e | code] eqn:Hcode; cbn.
  { repeat split; auto. exists e. split; [ reflexivity |].
    intros [Ht | Hn]; [ discriminate Ht |].
    destruct Hfail as [Hnn | (value & Hpath & _)]; [ congruence |].
    cbn in Hpath. rewrite Hcode in Hpath. discriminate Hpath. }
  assert (Herr : JS.nullish err = true).
  { destruct (JS.nullish err); [ reflexivity |].
    rewrite (Hdata eq_refl) in Hcode. discriminate Hcode. }
  destruct Hfail as [Hnn | (value & Hpath & Heq)]; [ congruence |].
  cbn in Hpath. rewrite Hcode in Hpath.
  destruct (JS.get code "value") as [e | value'] eqn:Hvalue;
    [ discriminate Hpath |].
  injection Hpath as ->. cbn. rewrite Heq. cbn.
  repeat split; eauto.
Qed.

Lemma operator_not_detected_raises_witness :
  let tr := always JNull (response_with Sample.not_found) in
  let r := exec Sample.client (ToMobilePhone Sample.payment) tr Sample.now in
  fst r = Normal tt
  /\ (exists e,
        raised r = Some e
        /\ (JS.truthy JNull = true \/ JS.nullish JNull = true ->
            e = Thrown (JError "Can't detect operator.")))
  /\ deliveries r = []
  /\ requests r
     = requests (run (detectOperator (JStr "79161234567")) tr Sample.now)
  /\ List.length (requests r) = 1%nat.
Proof.
  intros tr r.
  apply (operator_not_detected_raises Sample.client Sample.payment
           (JStr "9161234567") tr Sample.now JNull Sample.not_found).
  - reflexivity.
  - reflexivity.
  - right. exists (JStr "2"). split; reflexivity.
Defined.

(** X15.  Send-to-card whose card is not detected, by a truthy detection
    error or by status ["2"]: the callback is called once, with the error as
    its only argument, and only the detection request was issued. *)
Lemma card_not_detected
  (q : Qiwi) (requestOptions account : JSVal) (tr : Transport) (now : Z)
  (err data : JSVal) :
  JS.get requestOptions "account" = inr account ->
  deliveries (exec q (DetectCard account) tr now) = [[err; data]] ->
  JS.truthy err = true
  \/ (JS.nullish err = true
      /\ exists value,
           path data ["code"; "value"] = Some value
           /\ JS.loose_eq_2 value = true) ->
  let r := exec q (ToCard requestOptions) tr now in
  deliveries r = [[JError "Wrong card number!"]]
  /\ requests r = requests (exec q (DetectCard account) tr now)
  /\ List.length (requests r) = 1%nat
  /\ raised r = None.
Proof.
  intros Hacc Hstep Hfail. cbn zeta.
  unfold deliveries, requests, raised, exec, run in *. cbn [call] in *.
  unfold toCard, bind, get_prop. rewrite Hacc. cbn [ret].
  unfold detectCard in *. rewrite request_sent.
  apply (exchange_yields _ _ (boot tr now)) in Hstep as [_ [entry Hany]].
  rewrite Hany.
  unfold toCard_onDetect, not_detected, JS.arg, bind, get_prop. cbn [nth].
  destruct Hfail as [-> | (Hn & value & Hpath & Heq)]; cbn; [ auto |].
  assert (Hfalsy : JS.truthy err = false).
  { destruct (JS.truthy err) eqn:Ht; [| reflexivity ].
    rewrite (truthy_not_nullish _ Ht) in Hn. discriminate Hn. }
  rewrite Hfalsy. cbn in Hpath |- *.
  destruct (JS.get data "code") as [e | code]; [ discriminate Hpath |].
  cbn.
  destruct (JS.get code "value") as [e | value']; [ discriminate Hpath |].
  injection Hpath as ->. cbn. rewrite Heq. cbn. auto.
Qed.

(** C5 (at the failing input).  Send-to-card with a card-detection answer
    of status ["2"]: no payment request is issued and nothing is raised,
    but the callback is called with the error alone; its result argument is
    missing, not null. *)
Theorem toCard_not_detected_delivers_the_error_alone :
  let r := exec Sample.client (ToCard Sample.payment)
             (always JNull (response_with Sample.not_found)) Sample.now in
  deliveries r = [[JError "Wrong card number!"]]
  /\ deliveries r <> [[JError "Wrong card number!"; JNull]]
  /\ JS.arg 1 [JError "Wrong card number!"] = JUndefined
  /\ List.length (requests r) = 1%nat
  /\ raised r = None.
Proof. cbn. repeat split; discriminate. Qed.

(* ================================================================= *)
(** ** Tidy runs *)

Section TidyRuns.

Variable q : Qiwi.

Lemma Tidy_abrupt (n : nat) (w : World) (e : Exn) : Tidy n w (Abrupt e, w).
Proof.
  exists []. cbn. rewrite app_nil_r. repeat split; auto. lia.
Qed.

Lemma Tidy_caller (n : nat) (args : list JSVal) (w : World) :
  uncaught w = None -> Tidy n w (caller args w).
Proof.
  intros Hw. exists []. cbn. rewrite app_nil_r.
  repeat split; auto; [ lia |]. intros H. now rewrite Hw in H.
Qed.

Lemma Tidy_get (n : nat) (v : JSVal) (name : string) (k : JSVal -> M unit)
  (w : World) :
  (forall x, JS.get v name = inr x -> Tidy n w (k x w)) ->
  Tidy n w ((x <- get_prop v name ;; k x) w).
Proof.
  intros Hk. unfold bind, get_prop.
  destruct (JS.get v name) as [e | x]; cbn.
  - apply Tidy_abrupt.
  - now apply Hk.
Qed.

Lemma Tidy_from_event_loop (n : nat) (rq : Request) (entry : option (JSVal * JSVal))
  (w : World) (r : Completion unit * World) :
  to_qiwi rq ->
  Tidy n (match entry with
          | Some e => add_normalized e (add_sent rq w)
          | None => add_sent rq w
          end) r ->
  Tidy (S n) w (from_event_loop r).
Proof.
  intros Hrq (news & Hs & HP & Hl & Hq).
  exists (rq :: news).
  assert (Hraised : raised (from_event_loop r) = raised r)
    by (destruct r as [[[] | e] w']; reflexivity).
  assert (Hsent : sent (snd (from_event_loop r)) = sent (snd r))
    by (destruct r as [[[] | e] w']; reflexivity).
  assert (Hdel : delivered (snd (from_event_loop r)) = delivered (snd r))
    by (destruct r as [[[] | e] w']; reflexivity).
  rewrite Hraised, Hsent, Hdel, Hs.
  destruct entry; cbn in *; rewrite <- app_assoc; cbn.
  all: repeat split; auto; lia.
Qed.

(** One exchange answered through [respond]. *)
Lemma Tidy_exchange (n : nat) (verb : Verb) (options : JSVal) (cb : Callback)
  (w : World) :
  uncaught w = None ->
  to_qiwi (verb, options) ->
  (forall args w', uncaught w' = None -> Tidy n w' (cb args w')) ->
  Tidy (S n) w (request verb options (respond cb) w).
Proof.
  intros Hw Hrq Hcb. rewrite request_respond_unfold.
  destruct (JS.get _ "body") as [e | body].
  - apply (Tidy_from_event_loop n (verb, options) None w
             (Abrupt e, add_sent (verb, options) w) Hrq).
    apply Tidy_abrupt.
  - apply (Tidy_from_event_loop n (verb, options)
             (Some (fst (transport w (sent w) (verb, options)), body)) w _ Hrq).
    rewrite processRequestCallback_unfold.
    destruct (JS.nullish _).
    + destruct (JS.get body "errorCode"); [ apply Tidy_abrupt |].
      now apply Hcb.
    + now apply Hcb.
Qed.

Lemma Tidy_weaken (n m : nat) (w : World) (r : Completion unit * World) :
  (n <= m)%nat -> Tidy n w r -> Tidy m w r.
Proof.
  intros Hnm (news & Hs & HP & Hl & Hq). exists news. repeat split; auto. lia.
Qed.

Ltac to_qiwi_now :=
  split; [ reflexivity | eexists; split; [ reflexivity |] ];
  first [ left; reflexivity | right; left; reflexivity | right; right; reflexivity ].

Ltac tidy_prelude :=
  repeat first
    [ apply Tidy_get; intros ? ?
    | match goal with
      | |- Tidy _ _ ((_ <- payment_id ;; _) _) =>
          change (bind payment_id ?k ?w)
            with (k (JStr (JS.Number_toString (1000 * clock w))) w); cbv beta
      end ].

Ltac tidy_direct :=
  tidy_prelude;
  apply Tidy_exchange;
  [ assumption | to_qiwi_now | intros; now apply Tidy_caller ].

Lemma Tidy_getOperationHistory_onAccountInfo
  (requestOptions : JSVal) (args : list JSVal) (w : World) :
  uncaught w = None ->
  Tidy 1 w (getOperationHistory_onAccountInfo q requestOptions caller args w).
Proof.
  intros Hw. unfold getOperationHistory_onAccountInfo.
  destruct (negb _); [ now apply Tidy_caller |].
  destruct (JS.nullish _); [ now apply Tidy_caller |].
  tidy_direct.
Qed.

Lemma Tidy_getOperationStatistics_onAccountInfo
  (requestOptions : JSVal) (args : list JSVal) (w : World) :
  uncaught w = None ->
  Tidy 1 w (getOperationStatistics_onAccountInfo q requestOptions caller args w).
Proof.
  intros Hw. unfold getOperationStatistics_onAccountInfo.
  destruct (negb _); [ now apply Tidy_caller |].
  destruct (JS.nullish _); [ now apply Tidy_caller |].
  tidy_direct.
Qed.

Lemma Tidy_not_detected (n : nat) (err data : JSVal) (k : bool -> M unit)
  (w : World) :
  (forall b, Tidy n w (k b w)) ->
  Tidy n w ((failed <- not_detected err data ;; k failed) w).
Proof.
  intros Hk. unfold not_detected, bind, get_prop, ret.
  destruct (JS.truthy err); [ apply Hk |].
  destruct (JS.get data "code") as [e | code]; cbn; [ apply Tidy_abrupt |].
  destruct (JS.get code "value") as [e | value]; cbn; [ apply Tidy_abrupt |].
  apply Hk.
Qed.

Lemma Tidy_toMobilePhone_onDetect
  (requestOptions : JSVal) (args : list JSVal) (w : World) :
  uncaught w = None ->
  Tidy 1 w (toMobilePhone_onDetect q requestOptions caller args w).
Proof.
  intros Hw. unfold toMobilePhone_onDetect.
  apply Tidy_not_detected. intros [|]; [ apply Tidy_abrupt |].
  tidy_direct.
Qed.

Lemma Tidy_toCard_onDetect
  (requestOptions : JSVal) (args : list JSVal) (w : World) :
  uncaught w = None ->
  Tidy 1 w (toCard_onDetect q requestOptions caller args w).
Proof.
  intros Hw. unfold toCard_onDetect.
  apply Tidy_not_detected. intros [|]; [ now apply Tidy_caller |].
  tidy_direct.
Qed.

(** Every call of a public method is tidy: one request for a direct
    method, at most two for the others. *)
Lemma exec_tidy (op : Op) (tr : Transport) (now : Z) :
  Tidy (if direct op then 1 else 2) (boot tr now) (exec q op tr now).
Proof.
  assert (Hboot : uncaught (boot tr now) = None) by reflexivity.
  unfold exec, run. generalize dependent (boot tr now). intros w Hw.
  destruct op; cbn [call direct].
  all: try (unfold getIdentificationData, identifyWallet, getAccountInfo,
    getBalance, getTransactionInfo, getReceipt, toWallet, toBank,
    checkCommission, checkOnlineCommission, detectCard, getCrossRates,
    addWebHook, removeWebHook, getWebHookSecret, requestNewWebHookSecret,
    getActiveWebHook, testActiveWebHook; tidy_direct).
  - unfold getOperationHistory, getAccountInfo.
    apply Tidy_exchange; [ assumption | to_qiwi_now |].
    intros. now apply Tidy_getOperationHistory_onAccountInfo.
  - unfold getOperationStatistics, getAccountInfo.
    apply Tidy_exchange; [ assumption | to_qiwi_now |].
    intros. now apply Tidy_getOperationStatistics_onAccountInfo.
  - unfold toMobilePhone. apply Tidy_get; intros account _.
    unfold detectOperator. apply Tidy_get; intros h _.
    apply Tidy_exchange; [ assumption | to_qiwi_now |].
    intros. now apply Tidy_toMobilePhone_onDetect.
  - unfold toCard. apply Tidy_get; intros account _.
    unfold detectCard.
    apply Tidy_exchange; [ assumption | to_qiwi_now |].
    intros. now apply Tidy_toCard_onDetect.
Qed.

End TidyRuns.

(** Every call either raises to its caller before anything is issued, or
    is an exchange that starts from boot. *)
Ltac shape_callback :=
  intros;
  first [ now apply Tidy_caller
        | now apply Tidy_getOperationHistory_onAccountInfo
        | now apply Tidy_getOperationStatistics_onAccountInfo
        | now apply Tidy_toMobilePhone_onDetect
        | now apply Tidy_toCard_onDetect ].

Lemma exec_shape (q : Qiwi) (op : Op) (tr : Transport) (now : Z) :
  (exists e ro name,
     exec q op tr now = (Abrupt e, boot tr now)
     /\ options_read op = Some ro /\ e = TypeError ro name
     /\ JS.nullish ro = true)
  \/ (exists verb options cb,
        exec q op tr now = request verb options (respond cb) (boot tr now)
        /\ (direct op = true -> cb = caller)
        /\ (forall ro, options_read op = Some ro -> JS.nullish ro = false)
        /\ (forall args w, uncaught w = None -> Tidy 1 w (cb args w))).
Proof.
  assert (Hread : forall ro name,
    (exists x, JS.get ro name = inr x /\ JS.nullish ro = false)
    \/ (JS.get ro name = inl (TypeError ro name) /\ JS.nullish ro = true)).
  { intros ro name. destruct (JS.nullish ro) eqn:Hn.
    - right. split; [ now apply get_of_nullish | reflexivity ].
    - left. destruct (get_of_value ro name Hn) as [x Hx]. eauto. }
  unfold exec, run.
  destruct op; cbn [call options_read direct];
    unfold getIdentificationData, identifyWallet, getAccountInfo, getBalance,
      getOperationHistory, getOperationStatistics, getTransactionInfo,
      getReceipt, toWallet, toMobilePhone, toCard, toBank, checkCommission,
      checkOnlineCommission, detectOperator, detectCard, getCrossRates,
      addWebHook, removeWebHook, getWebHookSecret, requestNewWebHookSecret,
      getActiveWebHook, testActiveWebHook, payment_id, Date_now, bind, ret,
      get_prop, getAccountInfo.
  all: try (right; do 3 eexists; split; [ reflexivity |];
            split; [ try reflexivity; discriminate |];
            split; [ discriminate | shape_callback ]).
  all: match goal with
       | |- context [JS.get ?ro ?name] =>
           destruct (Hread ro name) as [(x & Hx & Hn) | [Hx Hn]]
       end.
  all: try (left; do 3 eexists; rewrite Hx; cbn;
            split; [ reflexivity |]; split; [ reflexivity |];
            split; [ reflexivity | exact Hn ]).
  all: right.
  all: repeat match goal with
         | |- context [JS.get ?ro ?name] =>
             let y := fresh "y" in
             let Hy := fresh "Hy" in
             destruct (get_of_value ro name Hn) as [y Hy]; rewrite Hy
         end.
  all: cbn; do 3 eexists; split; [ reflexivity |].
  all: split; [ try reflexivity; discriminate |].
  all: split; [ now intros ? [= <-] | shape_callback ].
Qed.


Lemma request_returns (verb : Verb) (options : JSVal) (cb : Callback) (w : World) :
  fst (request verb options cb w) = Normal tt.
Proof.
  unfold request, from_event_loop.
  now destruct (cb _ _) as [[[] | e] w'].
Qed.

(** An exchange whose listener is tidy issues its request first. *)
Lemma exchange_sends (n : nat) (verb : Verb) (options : JSVal) (cb : Callback)
  (w : World) :
  uncaught w = None ->
  (forall args w', uncaught w' = None -> Tidy n w' (cb args w')) ->
  exists news,
    sent (snd (request verb options (respond cb) w))
    = (sent w ++ (verb, options) :: news)%list
    /\ (List.length news <= n)%nat.
Proof.
  intros Hw Hcb. rewrite request_respond_unfold.
  destruct (JS.get _ "body") as [e | body].
  { exists []. split; [ reflexivity | apply Nat.le_0_l ]. }
  rewrite processRequestCallback_unfold.
  assert (Hloop : forall r,
    Tidy n (add_normalized (fst (transport w (sent w) (verb, options)), body)
              (add_sent (verb, options) w)) r ->
    exists news,
      sent (snd (from_event_loop r)) = (sent w ++ (verb, options) :: news)%list
      /\ (List.length news <= n)%nat).
  { intros r (news & Hs & _ & Hl & _). exists news.
    split; [| exact Hl ].
    destruct r as [[[] | e] w']; cbn in *; rewrite Hs, <- app_assoc; reflexivity. }
  destruct (JS.nullish _).
  - destruct (JS.get body "errorCode"); [ apply Hloop, Tidy_abrupt |].
    now apply Hloop, Hcb.
  - now apply Hloop, Hcb.
Qed.

(* ================================================================= *)
(** ** What a call issues, and when it calls back *)

(** X1.  A call of a public method issues at most two requests, and at most
    one unless it is one of the four two-step methods; a call that returns
    to its caller has issued at least one. *)
Theorem requests_per_call (q : Qiwi) (op : Op) (tr : Transport) (now : Z) :
  let r := exec q op tr now in
  (List.length (requests r) <= 2)%nat
  /\ (direct op = true -> (List.length (requests r) <= 1)%nat)
  /\ (fst r = Normal tt -> (1 <= List.length (requests r))%nat).
Proof.
  cbn zeta. unfold requests.
  destruct (exec_tidy q op tr now) as (news & Hs & _ & Hl & _).
  split; [ rewrite Hs; cbn [boot sent app]; destruct (direct op); lia |].
  split; [ intros Hd; rewrite Hs, Hd in *; exact Hl |].
  intros Hret.
  destruct (exec_shape q op tr now)
    as [(e & ro & name & He & _) | (verb & options & cb & He & _ & _ & Hcb)].
  - rewrite He in Hret. discriminate Hret.
  - rewrite He.
    destruct (exchange_sends 1 verb options cb (boot tr now) eq_refl Hcb)
      as (more & Hmore & _).
    rewrite Hmore. cbn. lia.
Qed.

Lemma requests_per_call_witness :
  let r := exec Sample.client GetBalance
             (always JNull (response_with Sample.account_info)) Sample.now in
  (List.length (requests r) <= 1)%nat /\ (1 <= List.length (requests r))%nat.
Proof.
  intros r.
  destruct (requests_per_call Sample.client GetBalance
              (always JNull (response_with Sample.account_info)) Sample.now)
    as (_ & Hone & Hsome).
  split; [ apply Hone | apply Hsome ]; reflexivity.
Defined.

(** X2.  Every request any method issues is flagged [json: true] and has a
    string URL that is under [https://edge.qiwi.com/] or is one of the two
    detection URLs: no argument can send a request elsewhere. *)
Theorem requests_go_to_qiwi
  (q : Qiwi) (op : Op) (tr : Transport) (now : Z) (rq : Request) :
  In rq (requests (exec q op tr now)) -> to_qiwi rq.
Proof.
  unfold requests.
  destruct (exec_tidy q op tr now) as (news & Hs & HP & _).
  rewrite Hs. cbn [boot sent app]. intros Hin.
  now apply (proj1 (Forall_forall _ _) HP).
Qed.

Lemma requests_go_to_qiwi_witness : to_qiwi Sample.wallet_request.
Proof.
  apply (requests_go_to_qiwi Sample.client (ToWallet Sample.payment)
           (always JNull JNull) Sample.now).
  cbn. left. reflexivity.
Defined.

(** X3.  The caller's callback is called exactly when nothing is raised: a
    run that raises nothing calls it once, and a run that raises (to the
    caller or from a transport callback) never calls it. *)
Theorem callback_iff_nothing_raised
  (q : Qiwi) (op : Op) (tr : Transport) (now : Z) :
  let r := exec q op tr now in
  (raised r = None <-> List.length (deliveries r) = 1%nat)
  /\ (raised r <> None <-> deliveries r = []).
Proof.
  cbn zeta. unfold deliveries.
  destruct (exec_good q op tr now)
    as (_ & _ & ds & _ & _ & _ & Hd & _ & _ & Hone & _).
  destruct (exec_tidy q op tr now) as (_ & _ & _ & _ & Hquiet).
  cbn [boot delivered app] in Hd, Hquiet.
  destruct (raised (exec q op tr now)) as [e |] eqn:Hr.
  - assert (Hnil : delivered (snd (exec q op tr now)) = [])
      by (apply Hquiet; discriminate).
    rewrite Hnil. cbn. repeat split; auto; discriminate.
  - rewrite Hd. specialize (Hone eq_refl).
    split; split; auto.
    + intros H. now elim H.
    + intros H. rewrite H in Hone. discriminate Hone.
Qed.

Lemma callback_iff_nothing_raised_witness :
  let r := exec Sample.client (ToMobilePhone Sample.payment)
             (always JNull (response_with Sample.not_found)) Sample.now in
  deliveries r = [].
Proof.
  intros r.
  apply (proj2 (callback_iff_nothing_raised Sample.client
                  (ToMobilePhone Sample.payment)
                  (always JNull (response_with Sample.not_found)) Sample.now)).
  discriminate.
Defined.

(** X4.  When the transport hands over no response object (undefined or
    null, as on a connection failure), whatever the error it reports, the
    callback is never called: the one request has been issued, and reading
    [response.body] raises a TypeError from the transport callback. *)
Theorem no_response_no_callback
  (q : Qiwi) (op : Op) (tr : Transport) (now : Z) :
  (forall before rq, JS.nullish (snd (tr before rq)) = true) ->
  let r := exec q op tr now in
  deliveries r = []
  /\ (fst r = Normal tt ->
      exists rq,
        requests r = [rq]
        /\ raised r = Some (TypeError (snd (tr [] rq)) "body")).
Proof.
  intros Hnone. cbn zeta. unfold deliveries, requests, raised.
  destruct (exec_shape q op tr now)
    as [(e & ro & name & He & _) | (verb & options & cb & He & _)];
    rewrite He.
  - split; [ reflexivity | discriminate ].
  - rewrite request_respond_unfold. cbn [boot transport sent].
    rewrite (get_of_nullish _ "body" (Hnone [] (verb, options))). cbn.
    split; [ reflexivity |]. intros _. eauto.
Qed.

Lemma no_response_no_callback_witness :
  let tr := always (JError "ECONNRESET") JUndefined in
  let r := exec Sample.client GetBalance tr Sample.now in
  deliveries r = []
  /\ (fst r = Normal tt ->
      exists rq,
        requests r = [rq]
        /\ raised r = Some (TypeError (snd (tr [] rq)) "body")).
Proof.
  intros tr r.
  apply (no_response_no_callback Sample.client GetBalance tr Sample.now).
  reflexivity.
Defined.

(** X5.  A call raises to its caller exactly when the method reads its
    request options (send-to-wallet, -mobile-phone, -card, -bank and the
    online commission) and they are null or undefined; it is then the
    TypeError of that read, nothing has been issued and the callback is
    never called.  Every other call returns, whatever its arguments. *)
Theorem raises_to_caller (q : Qiwi) (op : Op) (tr : Transport) (now : Z) :
  let r := exec q op tr now in
  ((exists e, fst r = Abrupt e)
   <-> (exists ro, options_read op = Some ro /\ JS.nullish ro = true))
  /\ (forall e,
        fst r = Abrupt e ->
        (exists ro name, options_read op = Some ro /\ e = TypeError ro name)
        /\ requests r = [] /\ deliveries r = [] /\ uncaught (snd r) = None).
Proof.
  cbn zeta. unfold requests, deliveries.
  destruct (exec_shape q op tr now)
    as [(e & ro & name & He & Hro & -> & Hn)
       | (verb & options & cb & He & _ & Hro & _)];
    rewrite He.
  - split.
    + split; intros _; [ exists ro; split; assumption |].
      eexists; reflexivity.
    + intros e' [= <-]. cbn. split; [| auto ].
      exists ro, name. split; [ assumption | reflexivity ].
  - rewrite request_returns. split.
    + split; [ intros [e H]; discriminate H |].
      intros (ro & Hsome & Hn). rewrite (Hro ro Hsome) in Hn. discriminate Hn.
    + intros e H. discriminate H.
Qed.

Lemma raises_to_caller_witness :
  let r := exec Sample.client (ToWallet JUndefined) (always JNull JNull)
             Sample.now in
  (exists e, fst r = Abrupt e)
  /\ requests r = [] /\ deliveries r = [].
Proof.
  intros r.
  destruct (raises_to_caller Sample.client (ToWallet JUndefined)
              (always JNull JNull) Sample.now) as [Hiff Hthen].
  assert (He : exists e, fst r = Abrupt e).
  { apply Hiff. exists JUndefined. split; reflexivity. }
  split; [ exact He |]. destruct He as [e He].
  destruct (Hthen e He) as (_ & Hrq & Hd & _). auto.
Defined.

(** X6.  A direct method hands the caller the normalization of the one
    answer it gets: with a response that has a body, a non-null transport
    error is delivered as [(error, null)]; with no error, a non-null body is
    delivered as [(body, null)] when its error code is defined and as
    [(null, body)] when it is not; nothing is raised. *)
Theorem direct_answer
  (q : Qiwi) (op : Op) (tr : Transport) (now : Z) (rq : Request) (body : JSVal) :
  direct op = true ->
  In rq (requests (exec q op tr now)) ->
  JS.get (snd (tr [] rq)) "body" = inr body ->
  let r := exec q op tr now in
  let error := fst (tr [] rq) in
  (JS.nullish error = false ->
   deliveries r = [[error; JNull]] /\ raised r = None)
  /\ (JS.nullish error = true -> JS.nullish body = false ->
      exists code,
        JS.get body "errorCode" = inr code
        /\ deliveries r = [if JS.nullish code then [JNull; body]
                           else [body; JNull]]
        /\ raised r = None).
Proof.
  intros Hdirect Hin Hbody. cbn zeta.
  unfold requests, deliveries, raised in *.
  destruct (exec_shape q op tr now)
    as [(e & ro & name & He & _) | (verb & options & cb & He & Hcb & _)];
    rewrite He in *.
  { destruct Hin. }
  rewrite (Hcb Hdirect) in *. rewrite request_sent in Hin.
  destruct Hin as [<- | []].
  rewrite request_respond_unfold. cbn [boot transport sent].
  rewrite Hbody. split.
  - intros Herr. rewrite (processRequestCallback_error _ _ _ Herr). auto.
  - intros Herr Hb. destruct (get_of_value body "errorCode" Hb) as [code Hc].
    exists code. split; [ exact Hc |].
    rewrite (processRequestCallback_body _ _ _ _ Herr Hc). auto.
Qed.

Lemma direct_answer_witness :
  let tr := always JNull (response_with Sample.account_info) in
  let r := exec Sample.client GetBalance tr Sample.now in
  exists code,
    JS.get Sample.account_info "errorCode" = inr code
    /\ deliveries r = [if JS.nullish code then [JNull; Sample.account_info]
                       else [Sample.account_info; JNull]]
    /\ raised r = None.
Proof.
  intros tr r.
  refine (proj2 (direct_answer Sample.client GetBalance tr Sample.now
                   (GET, JObj [ ("url", JStr (apiUri ++ "/funding-sources/v1/accounts/current"));
                                ("headers", headers Sample.client);
                                ("json", JBool true) ])
                   Sample.account_info eq_refl _ eq_refl) eq_refl eq_refl).
  cbn. left. reflexivity.
Defined.

(* ================================================================= *)
(** ** The second step of the two-step methods *)

(** The normalization routine delivers and raises the same from any world
    with the same deliveries and no uncaught exception. *)
Lemma processRequestCallback_anywhere (error body : JSVal) (w w' : World) :
  delivered w = delivered w' -> uncaught w = uncaught w' ->
  delivered (snd (processRequestCallback error body caller w))
  = delivered (snd (processRequestCallback error body caller w'))
  /\ raised (processRequestCallback error body caller w)
     = raised (processRequestCallback error body caller w').
Proof.
  intros Hd Hu. rewrite !processRequestCallback_unfold.
  destruct (JS.nullish error);
    [ destruct (JS.get body "errorCode") as [e | code] |];
    unfold raised; cbn; rewrite ?Hd, ?Hu; auto.
Qed.

(** X7.  When the account-info step of get-operation-history or
    get-operation-statistics succeeds and its payload has
    [authInfo.personId], the method then issues one GET under
    [/payment-history/v2/persons/<personId>] with the client's headers and
    the caller's request options, untouched, as query string; what the
    caller receives is the normalization of the answer to that second
    request. *)
Theorem two_step_second_request
  (q : Qiwi) (requestOptions : JSVal) (tr : Transport) (now : Z)
  (data pid : JSVal) :
  deliveries (exec q GetAccountInfo tr now) = [[JNull; data]] ->
  path data ["authInfo"; "personId"] = Some pid ->
  forall op tail,
    (op = GetOperationHistory requestOptions /\ tail = "/payments")
    \/ (op = GetOperationStatistics requestOptions /\ tail = "/payments/total") ->
    let first := requests (exec q GetAccountInfo tr now) in
    let second :=
      (GET, JObj [
         ("url", JStr (apiUri ++ "/payment-history/v2/persons/"
                        ++ JS.ToString pid ++ tail));
         ("headers", headers q);
         ("qs", requestOptions);
         ("json", JBool true) ]) in
    let r := exec q op tr now in
    requests r = (first ++ [second])%list
    /\ forall body,
         JS.get (snd (tr first second)) "body" = inr body ->
         let last := processRequestCallback (fst (tr first second)) body caller
                       (boot tr now) in
         deliveries r = deliveries last /\ raised r = raised last.
Proof.
  intros Hstep Hpath op tail Hop. cbn zeta.
  unfold deliveries, requests, exec, run in *. cbn [call] in *.
  unfold getAccountInfo in *. rewrite request_sent. cbn [boot sent app].
  apply (exchange_yields _ _ (boot tr now)) in Hstep
    as [(e0 & d0 & [= <- <-] & Hpair) [entry Hany]].
  assert (Hdata : JS.nullish data = false).
  { destruct Hpair as [[Hn _] | [_ Hd]]; [ discriminate Hn | exact Hd ]. }
  cbn in Hpath.
  destruct (JS.get data "authInfo") as [e | authInfo] eqn:Hauth;
    [ discriminate Hpath |].
  destruct (JS.get authInfo "personId") as [e | pid'] eqn:Hpid;
    [ discriminate Hpath |].
  injection Hpath as ->.
  destruct Hop as [[-> ->] | [-> ->]]; cbn [call];
    unfold getOperationHistory, getOperationStatistics, getAccountInfo;
    rewrite Hany;
    unfold getOperationHistory_onAccountInfo,
      getOperationStatistics_onAccountInfo, JS.arg, bind, get_prop;
    cbn [nth JS.nullish negb]; rewrite Hdata, Hauth; cbn [ret];
    rewrite Hpid; cbn [ret].
  all: rewrite from_event_loop_sent, from_event_loop_delivered,
         from_event_loop_raised, request_sent.
  all: split; [ reflexivity |].
  all: intros body Hbody.
  all: rewrite request_respond_unfold; cbn [add_normalized add_sent transport sent boot app].
  all: match goal with
       | |- context [JS.get ?x "body"] =>
           replace (JS.get x "body") with (@inr Exn JSVal body)
             by (symmetry; exact Hbody)
       end.
  all: rewrite from_event_loop_delivered, from_event_loop_raised.
  all: now apply processRequestCallback_anywhere.
Qed.

Lemma two_step_second_request_witness :
  let tr := always JNull (response_with Sample.account_info) in
  let r := exec Sample.client (GetOperationHistory Sample.history_query) tr
             Sample.now in
  requests r
  = (requests (exec Sample.client GetAccountInfo tr Sample.now)
     ++ [(GET, JObj [
            ("url", JStr "https://edge.qiwi.com/payment-history/v2/persons/79161234567/payments");
            ("headers", headers Sample.client);
            ("qs", Sample.history_query);
            ("json", JBool true) ])])%list
  /\ deliveries r = [[JNull; Sample.account_info]]
  /\ raised r = None.
Proof.
  intros tr r.
  destruct (two_step_second_request Sample.client Sample.history_query tr
              Sample.now Sample.account_info (JNum 79161234567)
              eq_refl eq_refl
              (GetOperationHistory Sample.history_query) "/payments"
              (or_introl (conj eq_refl eq_refl)))
    as [Hrequests Hlast].
  split; [ exact Hrequests |].
  exact (Hlast Sample.account_info eq_refl).
Defined.

(** X8.  When the account-info step succeeds with a payload that has no
    [authInfo] to read [personId] from, get-operation-history and
    get-operation-statistics call nobody back: the read raises a TypeError
    from the transport callback and no second request is issued. *)
Theorem two_step_without_person
  (q : Qiwi) (requestOptions : JSVal) (tr : Transport) (now : Z) (data : JSVal) :
  deliveries (exec q GetAccountInfo tr now) = [[JNull; data]] ->
  path data ["authInfo"; "personId"] = None ->
  forall op,
    op = GetOperationHistory requestOptions
    \/ op = GetOperationStatistics requestOptions ->
    let r := exec q op tr now in
    deliveries r = []
    /\ requests r = requests (exec q GetAccountInfo tr now)
    /\ fst r = Normal tt
    /\ exists authInfo,
         JS.get data "authInfo" = inr authInfo
         /\ JS.nullish authInfo = true
         /\ raised r = Some (TypeError authInfo "personId").
Proof.
  intros Hstep Hpath op Hop. cbn zeta.
  unfold deliveries, requests, raised, exec, run in *. cbn [call] in *.
  unfold getAccountInfo in *. rewrite request_sent.
  apply (exchange_yields _ _ (boot tr now)) in Hstep
    as [(e0 & d0 & [= <- <-] & Hpair) [entry Hany]].
  assert (Hdata : JS.nullish data = false).
  { destruct Hpair as [[Hn _] | [_ Hd]]; [ discriminate Hn | exact Hd ]. }
  destruct (get_of_value data "authInfo" Hdata) as [authInfo Hauth].
  cbn in Hpath. rewrite Hauth in Hpath.
  assert (Hnone : JS.nullish authInfo = true).
  { destruct (JS.nullish authInfo) eqn:Hn; [ reflexivity |].
    destruct (get_of_value authInfo "personId" Hn) as [pid Hpid].
    rewrite Hpid in Hpath. discriminate Hpath. }
  destruct Hop as [-> | ->]; cbn [call];
    unfold getOperationHistory, getOperationStatistics, getAccountInfo;
    rewrite Hany;
    unfold getOperationHistory_onAccountInfo,
      getOperationStatistics_onAccountInfo, JS.arg, bind, get_prop;
    cbn [nth JS.nullish negb]; rewrite Hdata, Hauth; cbn [ret];
    rewrite (get_of_nullish authInfo "personId" Hnone); cbn.
  all: repeat split; auto; exists authInfo; auto.
Qed.

Lemma two_step_without_person_witness :
  let tr := always JNull (response_with Sample.not_found) in
  let r := exec Sample.client (GetOperationStatistics Sample.history_query) tr
             Sample.now in
  deliveries r = []
  /\ requests r = requests (exec Sample.client GetAccountInfo tr Sample.now)
  /\ fst r = Normal tt
  /\ exists authInfo,
       JS.get Sample.not_found "authInfo" = inr authInfo
       /\ JS.nullish authInfo = true
       /\ raised r = Some (TypeError authInfo "personId").
Proof.
  intros tr r.
  apply (two_step_without_person Sample.client Sample.history_query tr
           Sample.now Sample.not_found eq_refl eq_refl).
  right. reflexivity.
Defined.

(* ================================================================= *)
(** ** The payment after a detection *)

(** X9.  When the detection step of send-to-card or send-to-mobile-phone
    succeeds with a status that is not ["2"], the method posts one payment
    to [/sinap/terms/<data.message>/payments] with the client's headers,
    and the body it posts is the very body send-to-wallet posts for the
    same request options at the same clock reading. *)
Theorem detected_provider_is_paid
  (q : Qiwi) (requestOptions account : JSVal) (tr : Transport) (now : Z)
  (data value : JSVal) :
  JS.get requestOptions "account" = inr account ->
  forall op detection,
    (op = ToCard requestOptions
     /\ detection = exec q (DetectCard account) tr now)
    \/ (op = ToMobilePhone requestOptions
        /\ detection
           = run (detectOperator (JStr ("7" ++ JS.ToString account))) tr now) ->
    deliveries detection = [[JNull; data]] ->
    path data ["code"; "value"] = Some value ->
    JS.loose_eq_2 value = false ->
    exists message body,
      JS.get data "message" = inr message
      /\ requests (exec q op tr now)
         = (requests detection
            ++ [(POST, JObj [
                   ("url", JStr (apiUri ++ "/sinap/terms/"
                                  ++ JS.ToString message ++ "/payments"));
                   ("headers", headers q);
                   ("body", body);
                   ("json", JBool true) ])])%list
      /\ requests (exec q (ToWallet requestOptions) tr now)
         = [(POST, JObj [
               ("url", JStr (apiUri ++ "/sinap/terms/99/payments"));
               ("headers", headers q);
               ("body", body);
               ("json", JBool true) ])].
Proof.
  intros Hacc op detection Hop Hstep Hpath Heq.
  pose proof (get_inr_not_nullish _ _ _ Hacc) as Hro.
  destruct (get_of_value requestOptions "amount" Hro) as [amount Ham].
  destruct (get_of_value requestOptions "comment" Hro) as [comment Hcom].
  cbn in Hpath.
  destruct (JS.get data "code") as [e | code] eqn:Hcode; [ discriminate Hpath |].
  destruct (JS.get code "value") as [e | value'] eqn:Hvalue;
    [ discriminate Hpath |].
  injection Hpath as ->.
  destruct (get_of_value data "message" (get_inr_not_nullish _ _ _ Hcode))
    as [message Hmsg].
  exists message.
  eexists. split; [ exact Hmsg |].
  unfold deliveries, requests, exec, run in *.
  split.
  - destruct Hop as [[-> ->] | [-> ->]]; cbn [call] in *;
      unfold toCard, toMobilePhone, detectCard, detectOperator, bind, get_prop
        in *;
      cbn in Hstep; rewrite Hacc; cbn; rewrite request_sent;
      apply (exchange_yields _ _ (boot tr now)) in Hstep as [_ [entry Hany]];
      rewrite Hany;
      unfold toCard_onDetect, toMobilePhone_onDetect, not_detected, JS.arg,
        bind, get_prop, payment_id, Date_now, ret;
      cbn [nth JS.truthy]; rewrite Hcode; cbn; rewrite Hvalue; cbn;
      rewrite Heq, Hmsg; cbn; rewrite Ham; cbn; rewrite Hcom; cbn;
      rewrite Hacc; cbn;
      rewrite from_event_loop_sent, request_sent; reflexivity.
  - cbn [call]. unfold toWallet, bind, get_prop, payment_id, Date_now, ret.
    cbn. rewrite Ham. cbn. rewrite Hcom. cbn. rewrite Hacc. cbn.
    rewrite request_sent. reflexivity.
Qed.

Lemma detected_provider_is_paid_witness :
  let tr := always JNull (response_with Example.detected) in
  exists message body,
    JS.get Example.detected "message" = inr message
    /\ requests (exec Sample.client (ToCard Sample.payment) tr Sample.now)
       = (requests (exec Sample.client (DetectCard (JStr "9161234567")) tr
                      Sample.now)
          ++ [(POST, JObj [
                 ("url", JStr (apiUri ++ "/sinap/terms/"
                                ++ JS.ToString message ++ "/payments"));
                 ("headers", headers Sample.client);
                 ("body", body);
                 ("json", JBool true) ])])%list
    /\ requests (exec Sample.client (ToWallet Sample.payment) tr Sample.now)
       = [(POST, JObj [
             ("url", JStr (apiUri ++ "/sinap/terms/99/payments"));
             ("headers", headers Sample.client);
             ("body", body);
             ("json", JBool true) ])].
Proof.
  intros tr.
  apply (detected_provider_is_paid Sample.client Sample.payment
           (JStr "9161234567") tr Sample.now Example.detected (JStr "0")
           eq_refl (ToCard Sample.payment)
           (exec Sample.client (DetectCard (JStr "9161234567")) tr Sample.now)
           (or_introl (conj eq_refl eq_refl)) eq_refl eq_refl eq_refl).
Defined.

(** X10.  When the detection step of send-to-card or send-to-mobile-phone
    succeeds with a payload that has no [code] to read [value] from, the
    method calls nobody back: the read raises a TypeError from the transport
    callback and no payment request is issued. *)
Theorem detection_without_status
  (q : Qiwi) (requestOptions account : JSVal) (tr : Transport) (now : Z)
  (data : JSVal) :
  JS.get requestOptions "account" = inr account ->
  forall op detection,
    (op = ToCard requestOptions
     /\ detection = exec q (DetectCard account) tr now)
    \/ (op = ToMobilePhone requestOptions
        /\ detection
           = run (detectOperator (JStr ("7" ++ JS.ToString account))) tr now) ->
    deliveries detection = [[JNull; data]] ->
    path data ["code"; "value"] = None ->
    let r := exec q op tr now in
    deliveries r = []
    /\ requests r = requests detection
    /\ fst r = Normal tt
    /\ exists code,
         JS.get data "code" = inr code
         /\ JS.nullish code = true
         /\ raised r = Some (TypeError code "value").
Proof.
  intros Hacc op detection Hop Hstep Hpath. cbn zeta.
  unfold deliveries, requests, raised, exec, run in *.
  assert (Hshape :
    exists verb options cb,
      detection = request verb options (respond caller) (boot tr now)
      /\ call q op caller (boot tr now)
         = request verb options (respond (cb caller)) (boot tr now)
      /\ (cb = toCard_onDetect q requestOptions
          \/ cb = toMobilePhone_onDetect q requestOptions)).
  { destruct Hop as [[-> ->] | [-> ->]]; cbn [call];
      unfold toCard, toMobilePhone, detectCard, detectOperator, bind, get_prop;
      rewrite Hacc; cbn; do 3 eexists.
    all: split; [ reflexivity |]; split; [ reflexivity |]; auto. }
  destruct Hshape as (verb & options & cb & -> & -> & Hcb).
  rewrite !request_sent.
  apply (exchange_yields _ _ (boot tr now)) in Hstep
    as [(e0 & d0 & [= <- <-] & Hpair) [entry Hany]].
  assert (Hdata : JS.nullish data = false).
  { destruct Hpair as [[Hn _] | [_ Hd]]; [ discriminate Hn | exact Hd ]. }
  destruct (get_of_value data "code" Hdata) as [code Hcode].
  cbn in Hpath. rewrite Hcode in Hpath.
  assert (Hnone : JS.nullish code = true).
  { destruct (JS.nullish code) eqn:Hn; [ reflexivity |].
    destruct (get_of_value code "value" Hn) as [v Hv].
    rewrite Hv in Hpath. discriminate Hpath. }
  rewrite Hany.
  destruct Hcb as [-> | ->];
    unfold toCard_onDetect, toMobilePhone_onDetect, not_detected, JS.arg, bind,
      get_prop;
    cbn [nth JS.truthy]; rewrite Hcode; cbn;
    rewrite (get_of_nullish code "value" Hnone); cbn.
  all: repeat split; auto; exists code; auto.
Qed.

Lemma detection_without_status_witness :
  let tr := always JNull (response_with Example.malformed) in
  let r := exec Sample.client (ToCard Sample.payment) tr Sample.now in
  deliveries r = []
  /\ requests r
     = requests (exec Sample.client (DetectCard (JStr "9161234567")) tr Sample.now)
  /\ fst r = Normal tt
  /\ exists code,
       JS.get Example.malformed "code" = inr code
       /\ JS.nullish code = true
       /\ raised r = Some (TypeError code "value").
Proof.
  intros tr r.
  apply (detection_without_status Sample.client Sample.payment
           (JStr "9161234567") tr Sample.now Example.malformed eq_refl
           (ToCard Sample.payment)
           (exec Sample.client (DetectCard (JStr "9161234567")) tr Sample.now)
           (or_introl (conj eq_refl eq_refl)) eq_refl eq_refl).
Defined.

(* ================================================================= *)
(** ** Payment identifiers, odd bodies, and the tables *)

Lemma Number_toString_inj (a b : Z) :
  JS.Number_toString a = JS.Number_toString b -> a = b.
Proof.
  intros H.
  pose proof (Number_toString_reads_back a) as Ha.
  rewrite H, Number_toString_reads_back in Ha. now injection Ha.
Qed.

(** X11.  The payment identifier depends on the clock alone: for clock
    readings whose thousandfold is an exact JavaScript number, two
    send-to-wallet (or two send-to-bank) calls with the same arguments issue
    the same request, identifier included, exactly when they are made at
    the same clock reading, whatever the transport answers. *)
Theorem payment_id_identifies_the_millisecond
  (q : Qiwi) (requestOptions recipient : JSVal) (tr1 tr2 : Transport)
  (now1 now2 : Z) :
  JS.nullish requestOptions = false ->
  0 <= now1 -> 1000 * now1 < 2 ^ 53 ->
  0 <= now2 -> 1000 * now2 < 2 ^ 53 ->
  forall op,
    op = ToWallet requestOptions \/ op = ToBank requestOptions recipient ->
    (requests (exec q op tr1 now1) = requests (exec q op tr2 now2)
     <-> now1 = now2).
Proof.
  intros Hro _ _ _ _ op Hop.
  destruct (get_of_value requestOptions "amount" Hro) as [amount Ham].
  destruct (get_of_value requestOptions "comment" Hro) as [comment Hcom].
  destruct (get_of_value requestOptions "account" Hro) as [account Hacc].
  destruct (get_of_value requestOptions "account_type" Hro) as [kind Hkind].
  destruct (get_of_value requestOptions "exp_date" Hro) as [date Hdate].
  unfold requests, exec, run.
  destruct Hop as [-> | ->]; cbn [call];
    unfold toWallet, toBank, bind, get_prop, payment_id, Date_now, ret;
    cbn [boot clock];
    rewrite Ham; cbn; rewrite Hcom; cbn; rewrite Hacc; cbn;
    rewrite ?Hkind; cbn; rewrite ?Hdate; cbn; rewrite !request_sent; cbn.
  all: split; [| intros ->; reflexivity ].
  all: intros [= H]; apply Number_toString_inj in H.
  all: change (1000 * now1 = 1000 * now2) in H; lia.
Qed.

Lemma payment_id_identifies_the_millisecond_witness :
  requests (exec Sample.client (ToWallet Sample.payment)
              (always JNull JNull) Sample.now)
  = requests (exec Sample.client (ToWallet Sample.payment)
                (always Sample.transport_error JUndefined) Sample.now).
Proof.
  assert (Hlo : 0 <= Sample.now) by (unfold Sample.now; lia).
  assert (Hhi : 1000 * Sample.now < 2 ^ 53) by (unfold Sample.now; lia).
  apply (payment_id_identifies_the_millisecond Sample.client Sample.payment
           JNull (always JNull JNull) (always Sample.transport_error JUndefined)
           Sample.now Sample.now eq_refl Hlo Hhi Hlo Hhi
           (ToWallet Sample.payment) (or_introl eq_refl)).
  reflexivity.
Defined.

(** X12.  A body that is not null and not an object (a string such as an
    empty or HTML body, a number, a boolean, an array) has no error code:
    received without a transport error by a direct method, it is delivered
    to the caller as a success, [(null, body)]. *)
Theorem non_object_body_is_a_success
  (q : Qiwi) (op : Op) (tr : Transport) (now : Z) (rq : Request) (body : JSVal) :
  direct op = true ->
  In rq (requests (exec q op tr now)) ->
  JS.nullish (fst (tr [] rq)) = true ->
  JS.get (snd (tr [] rq)) "body" = inr body ->
  JS.nullish body = false ->
  not_an_object body = true ->
  deliveries (exec q op tr now) = [[JNull; body]]
  /\ raised (exec q op tr now) = None.
Proof.
  intros Hdirect Hin Herr Hbody Hb Hobj.
  assert (Hcode : JS.get body "errorCode" = inr JUndefined).
  { destruct body; try discriminate; try reflexivity. }
  unfold requests, deliveries, raised in *.
  destruct (exec_shape q op tr now)
    as [(e & ro & name & He & _) | (verb & options & cb & He & Hcb & _)];
    rewrite He in *.
  { destruct Hin. }
  rewrite (Hcb Hdirect) in *. rewrite request_sent in Hin.
  destruct Hin as [<- | []].
  rewrite request_respond_unfold. cbn [boot transport sent].
  rewrite Hbody, (processRequestCallback_body _ _ _ _ Herr Hcode). auto.
Qed.

Lemma non_object_body_is_a_success_witness :
  let tr := always JNull (response_with (JStr EmptyString)) in
  deliveries (exec Sample.client GetBalance tr Sample.now)
  = [[JNull; JStr EmptyString]]
  /\ raised (exec Sample.client GetBalance tr Sample.now) = None.
Proof.
  intros tr.
  apply (non_object_body_is_a_success Sample.client GetBalance tr Sample.now
           (GET, JObj [ ("url", JStr (apiUri ++ "/funding-sources/v1/accounts/current"));
                        ("headers", headers Sample.client);
                        ("json", JBool true) ])
           (JStr EmptyString) eq_refl).
  - cbn. left. reflexivity.
  - reflexivity.
  - reflexivity.
  - reflexivity.
  - reflexivity.
Defined.

(** X13.  Send-to-wallet is send-to-bank-account to the wallet provider of
    the recipient table: with [recipients.qiwi] as recipient, send-to-bank
    posts to the same URL with the same headers, and its body agrees with
    send-to-wallet's on [id], [sum], [source], [paymentMethod], [comment]
    and [fields.account]. *)
Theorem toWallet_is_toBank_to_qiwi
  (q : Qiwi) (requestOptions : JSVal) (tr : Transport) (now : Z) :
  JS.nullish requestOptions = false ->
  exists code url hdrs wallet_body bank_body,
    path recipients ["qiwi"] = Some code
    /\ requests (exec q (ToWallet requestOptions) tr now)
       = [(POST, JObj [ ("url", url); ("headers", hdrs);
                        ("body", wallet_body); ("json", JBool true) ])]
    /\ requests (exec q (ToBank requestOptions code) tr now)
       = [(POST, JObj [ ("url", url); ("headers", hdrs);
                        ("body", bank_body); ("json", JBool true) ])]
    /\ (forall name,
          In name ["id"; "sum"; "source"; "paymentMethod"; "comment"] ->
          JS.get wallet_body name = JS.get bank_body name)
    /\ path wallet_body ["fields"; "account"]
       = path bank_body ["fields"; "account"].
Proof.
  intros Hro.
  destruct (get_of_value requestOptions "amount" Hro) as [amount Ham].
  destruct (get_of_value requestOptions "comment" Hro) as [comment Hcom].
  destruct (get_of_value requestOptions "account" Hro) as [account Hacc].
  destruct (get_of_value requestOptions "account_type" Hro) as [kind Hkind].
  destruct (get_of_value requestOptions "exp_date" Hro) as [date Hdate].
  exists (JNum 99). do 4 eexists.
  split; [ reflexivity |].
  unfold requests, exec, run. cbn [call].
  unfold toWallet, toBank, bind, get_prop, payment_id, Date_now, ret.
  cbn [boot clock]. rewrite Ham. cbn. rewrite Hcom. cbn. rewrite Hacc. cbn.
  rewrite Hkind. cbn. rewrite Hdate. cbn. rewrite !request_sent. cbn.
  split; [ reflexivity |]. split; [ reflexivity |]. split; [| reflexivity ].
  intros name [<- | [<- | [<- | [<- | [<- | []]]]]]; reflexivity.
Qed.

Lemma toWallet_is_toBank_to_qiwi_witness :
  exists code url hdrs wallet_body bank_body,
    path recipients ["qiwi"] = Some code
    /\ requests (exec Sample.client (ToWallet Example.bank_payment)
                   (always JNull JNull) Sample.now)
       = [(POST, JObj [ ("url", url); ("headers", hdrs);
                        ("body", wallet_body); ("json", JBool true) ])]
    /\ requests (exec Sample.client (ToBank Example.bank_payment code)
                   (always JNull JNull) Sample.now)
       = [(POST, JObj [ ("url", url); ("headers", hdrs);
                        ("body", bank_body); ("json", JBool true) ])]
    /\ (forall name,
          In name ["id"; "sum"; "source"; "paymentMethod"; "comment"] ->
          JS.get wallet_body name = JS.get bank_body name)
    /\ path wallet_body ["fields"; "account"]
       = path bank_body ["fields"; "account"].
Proof.
  apply (toWallet_is_toBank_to_qiwi Sample.client Example.bank_payment
           (always JNull JNull) Sample.now).
  reflexivity.
Defined.

(** X14.  The recipient table holds eighteen provider codes, all positive
    and pairwise distinct: a provider code names one recipient. *)
Theorem recipient_codes_are_distinct :
  List.length (numbers recipients) = 18%nat
  /\ Forall (fun code => 0 < code) (numbers recipients)
  /\ NoDup (numbers recipients).
Proof.
  split; [ reflexivity |]. split.
  - cbn. repeat constructor.
  - cbn. repeat (constructor; [ cbn; intuition discriminate |]). constructor.
Qed.

(* ================================================================= *)
(** ** A card that is not detected *)

Lemma card_not_detected_witness :
  let tr := always JNull (response_with Sample.api_error) in
  let r := exec Sample.client (ToCard Sample.payment) tr Sample.now in
  deliveries r = [[JError "Wrong card number!"]]
  /\ requests r
     = requests (exec Sample.client (DetectCard (JStr "9161234567")) tr Sample.now)
  /\ List.length (requests r) = 1%nat
  /\ raised r = None.
Proof.
  intros tr r.
  apply (card_not_detected Sample.client Sample.payment (JStr "9161234567") tr
           Sample.now Sample.api_error JNull eq_refl eq_refl).
  left. reflexivity.
Defined.
